(** * update_groq.py: value normalisers, table extraction, aggregation and
      the raw-text merger, as a shallow embedding.

    Python [str] values are modelled as [string] (code points below 256,
    one [ascii] each).  A Python exception is a [Raise] result.  Python
    [dict]s are insertion-ordered association lists with unique keys. *)

From Stdlib Require Import Bool Arith ZArith List Ascii String Lia.
From Stdlib Require Import DecimalString.
Import ListNotations.
Open Scope string_scope.

Set Default Proof Using "Type".

(** ** Results of fallible Python code *)

Inductive exn : Type :=
| ValueError
| IndexError
| KeyError
| AttributeError
| ReError
| NotModelled.

Inductive result (A : Type) : Type :=
| Ok (a : A)
| Raise (e : exn).
Arguments Ok {A} a.
Arguments Raise {A} e.

Definition bind {A B : Type} (r : result A) (k : A -> result B) : result B :=
  match r with
  | Ok a => k a
  | Raise e => Raise e
  end.

Notation "x <- r ;; k" := (bind r (fun x => k))
  (at level 61, r at next level, right associativity).

(** ** Python string primitives *)

(** [str.isspace] on one character, which is also the class [\s] of a
    [str] pattern: tab, LF, VT, FF, CR, the four separators 0x1c-0x1f,
    the space, NEL (0x85) and the no-break space (0xa0). *)
Definition is_space (c : ascii) : bool :=
  let n := nat_of_ascii c in
  (Nat.leb 9 n && Nat.leb n 13) || (Nat.leb 28 n && Nat.leb n 32)
  || Nat.eqb n 133 || Nat.eqb n 160.

Definition is_digit (c : ascii) : bool :=
  let n := nat_of_ascii c in Nat.leb 48 n && Nat.leb n 57.

(** The superscripts two, three and one: digits for [str.isdigit], not
    for [int]. *)
Definition is_superscript_digit (c : ascii) : bool :=
  let n := nat_of_ascii c in
  Nat.eqb n 178 || Nat.eqb n 179 || Nat.eqb n 185.

(** Upper-case letters: A-Z and, in Latin-1, 0xc0-0xde without the
    multiplication sign 0xd7. *)
Definition lower_char (c : ascii) : ascii :=
  let n := nat_of_ascii c in
  if (Nat.leb 65 n && Nat.leb n 90)
     || (Nat.leb 192 n && Nat.leb n 222 && negb (Nat.eqb n 215))
  then ascii_of_nat (n + 32) else c.

(** [s.lower()] *)
Fixpoint lower (s : string) : string :=
  match s with
  | EmptyString => EmptyString
  | String c s' => String (lower_char c) (lower s')
  end.

Fixpoint lstrip (s : string) : string :=
  match s with
  | EmptyString => EmptyString
  | String c s' => if is_space c then lstrip s' else s
  end.

Fixpoint rstrip (s : string) : string :=
  match s with
  | EmptyString => EmptyString
  | String c s' =>
      match rstrip s' with
      | EmptyString => if is_space c then EmptyString else String c EmptyString
      | r => String c r
      end
  end.

(** [s.strip()] *)
Definition strip (s : string) : string := rstrip (lstrip s).

(** [s.startswith(p)] *)
Fixpoint starts_with (p s : string) : bool :=
  match p, s with
  | EmptyString, _ => true
  | String a p', String b s' => Ascii.eqb a b && starts_with p' s'
  | String _ _, EmptyString => false
  end.

(** [sub in s] *)
Fixpoint contains (sub s : string) : bool :=
  starts_with sub s ||
  match s with
  | EmptyString => false
  | String _ s' => contains sub s'
  end.

(** [s.replace(old, new)] for a non-empty [old]: occurrences are taken
    leftmost first and do not overlap; [skip] counts the characters of an
    occurrence still to be dropped. *)
Fixpoint replace_from (old new s : string) (skip : nat) : string :=
  match s with
  | EmptyString => EmptyString
  | String c s' =>
      match skip with
      | S k => replace_from old new s' k
      | O =>
          if starts_with old s
          then new ++ replace_from old new s' (String.length old - 1)
          else String c (replace_from old new s' 0)
      end
  end.

Definition replace (old new s : string) : string := replace_from old new s 0.

(** [s.split(sep)] for a non-empty [sep]: [cur] is the piece read so far,
    [skip] the characters of a separator still to be dropped. *)
Fixpoint split_from (sep s cur : string) (skip : nat) : list string :=
  match s with
  | EmptyString => [cur]
  | String c s' =>
      match skip with
      | S k => split_from sep s' cur k
      | O =>
          if starts_with sep s
          then cur :: split_from sep s' EmptyString (String.length sep - 1)
          else split_from sep s' (cur ++ String c EmptyString) 0
      end
  end.

Definition split (sep s : string) : list string :=
  split_from sep s EmptyString 0.

(** [c in s] for a single character. *)
Fixpoint has_char (c : ascii) (s : string) : bool :=
  match s with
  | EmptyString => false
  | String a s' => Ascii.eqb a c || has_char c s'
  end.

(** [xs[i]] for a non-negative index. *)
Definition index {A : Type} (xs : list A) (i : nat) : result A :=
  match nth_error xs i with
  | Some x => Ok x
  | None => Raise IndexError
  end.

Fixpoint all_digits (s : string) : bool :=
  match s with
  | EmptyString => true
  | String c s' => is_digit c && all_digits s'
  end.

Fixpoint all_isdigit (s : string) : bool :=
  match s with
  | EmptyString => true
  | String c s' => (is_digit c || is_superscript_digit c) && all_isdigit s'
  end.

(** [s.isdigit()] *)
Definition isdigit (s : string) : bool :=
  match s with
  | EmptyString => false
  | _ => all_isdigit s
  end.

Definition digit_value (c : ascii) : Z := Z.of_nat (nat_of_ascii c) - 48.

Fixpoint int_from (acc : Z) (s : string) : Z :=
  match s with
  | EmptyString => acc
  | String c s' => int_from (10 * acc + digit_value c) s'
  end.

Definition int_of_digits (s : string) : Z := int_from 0 s.

(** [int(s)] on a text without sign, blank or underscore: the decimal
    digits are 0-9, anything else raises. *)
Definition py_int (s : string) : result Z :=
  match s with
  | EmptyString => Raise ValueError
  | _ => if all_digits s then Ok (int_of_digits s) else Raise ValueError
  end.

(** ** Value normalisers *)

(** [_convert_date]: [date.split("/")] and the f-string
    [20{parts[2]}-{parts[0]}-{parts[1]}]. *)
Definition _convert_date (date : string) : result string :=
  let date_parts := split "/" date in
  p2 <- index date_parts 2 ;;
  p0 <- index date_parts 0 ;;
  p1 <- index date_parts 1 ;;
  Ok ("20" ++ p2 ++ "-" ++ p0 ++ "-" ++ p1).

(** ** Python dictionaries: insertion-ordered, keys unique *)

Definition dict (V : Type) : Type := list (string * V).

(** [d.get(k)] *)
Fixpoint dict_get {V : Type} (k : string) (d : dict V) : option V :=
  match d with
  | [] => None
  | (k', v) :: d' => if String.eqb k k' then Some v else dict_get k d'
  end.

(** [k in d] *)
Definition dict_mem {V : Type} (k : string) (d : dict V) : bool :=
  match dict_get k d with
  | Some _ => true
  | None => false
  end.

(** [d[k] = v]: an existing key keeps its place, a new key goes last. *)
Fixpoint dict_set {V : Type} (k : string) (v : V) (d : dict V) : dict V :=
  match d with
  | [] => [(k, v)]
  | (k', v') :: d' =>
      if String.eqb k k' then (k', v) :: d' else (k', v') :: dict_set k v d'
  end.

(** [d.pop(k)] for its effect on [d]. *)
Fixpoint dict_pop {V : Type} (k : string) (d : dict V) : dict V :=
  match d with
  | [] => []
  | (k', v') :: d' =>
      if String.eqb k k' then d' else (k', v') :: dict_pop k d'
  end.

(** [a | b], and [a.update(b)] for its effect on [a]. *)
Definition dict_union {V : Type} (a b : dict V) : dict V :=
  fold_left (fun acc kv => dict_set (fst kv) (snd kv) acc) b a.

(** [d.get(k, {})] *)
Definition dict_get_or_empty {V : Type} (k : string) (d : dict (dict V))
  : dict V :=
  match dict_get k d with
  | Some r => r
  | None => []
  end.

Definition keys {V : Type} (d : dict V) : list string := map fst d.

(** ** Values, cells and tables *)

Section Groq.

(** Python's binary floating point is kept abstract: the type, [float(s)]
    ([None] when it raises ValueError), true division by an [int], the
    format [f"{x:.8f}"], the literal [0.0] and [repr], which [json.dumps]
    prints. *)
Variable float : Type.
Variable float_of_str : string -> option float.
Variable float_div : float -> Z -> float.
Variable format_8f : float -> string.
Variable float_zero : float.
Variable float_repr : float -> string.

(** A field value of a model record. *)
Inductive value : Type :=
| VFloat (x : float)
| VInt (n : Z)
| VBool (b : bool)
| VStr (s : string).

Definition record : Type := dict value.

(** [v == "-"]: only a [str] equals a [str]. *)
Definition is_placeholder (v : value) : bool :=
  match v with
  | VStr s => String.eqb s "-"
  | _ => false
  end.

(** A [td] element: its [.text] and, when it holds an [a] element with
    that attribute, the [href] of its first [a]. *)
Record cell : Type := { text : string; href : option string }.

(** A table: the [.text] of its [th] elements and, for each [tr] in
    document order, its [td] elements. *)
Record table : Type := { th : list string; tr : list (list cell) }.

Definition py_float (s : string) : result float :=
  match float_of_str s with
  | Some x => Ok x
  | None => Raise ValueError
  end.

(** [price.split("\n")[0].replace("$", "").replace("*", "").strip()] *)
Definition price_text (price : string) : string :=
  let first_line := hd EmptyString (split (String "010" EmptyString) price) in
  strip (replace "*" "" (replace "$" "" first_line)).

(** [_convert_price] *)
Definition _convert_price (price : string) (divisor : Z) : result float :=
  let ppm := price_text price in
  x <- py_float ppm ;;
  let ppt := float_div x divisor in
  py_float (format_8f ppt).

(** Lines 133-151 of [_extract_table_data]: what one cell contributes to
    the row's record; [None] leaves the field out. *)
Definition convert_cell (col_name text_ : string) : result (option value) :=
  if contains "cost" col_name then
    if contains "per_token" col_name then
      x <- _convert_price text_ 1000000 ;; Ok (Some (VFloat x))
    else if contains "per_second" col_name then
      x <- _convert_price text_ (60 ^ 2) ;; Ok (Some (VFloat x))
    else if contains "per_character" col_name then
      x <- _convert_price text_ 1000000 ;; Ok (Some (VFloat x))
    else Ok None
  else if contains "supports" col_name then
    if negb (contains "yes" text_) && negb (contains "no" text_)
    then Raise ValueError
    else Ok (Some (VBool (String.eqb text_ "yes")))
  else if contains "tokens" col_name then
    let tokens := replace "k" "000" (replace "," "" text_) in
    if isdigit tokens then n <- py_int tokens ;; Ok (Some (VInt n))
    else Ok None
  else if contains "date" col_name then
    d <- _convert_date text_ ;; Ok (Some (VStr d))
  else Ok (Some (VStr text_)).

(** [_extract_col_names] *)
Definition _extract_col_names (t : table) : list string :=
  map (fun name => strip (lower name)) (th t).

(** The header loop: every header, in order, against every desired
    column; a later header overwrites an earlier index. *)
Definition build_col_map (col_names : list string)
    (desired_col_names : list (string * string)) (col_map_input : dict nat)
  : dict nat :=
  fst (fold_left
    (fun (st : dict nat * nat) col =>
       let (col_map, i) := st in
       (fold_left
          (fun cm (d : string * string) =>
             let (col_desc, litellm_name) := d in
             if contains col_desc col then dict_set litellm_name i cm else cm)
          desired_col_names col_map,
        S i))
    col_names (col_map_input, 0)).

(** The model name of a row. *)
Definition row_model_name (col_map : dict nat) (row_values : list cell)
  : result string :=
  match dict_get "try_now_button" col_map with
  | Some i =>
      c <- index row_values i ;;
      match href c with
      | Some model_groq_link =>
          Ok (last (split "?model=" model_groq_link) EmptyString)
      | None => Raise AttributeError
      end
  | None =>
      match dict_get "name" col_map with
      | Some i => c <- index row_values i ;; Ok (strip (lower (text c)))
      | None => Raise KeyError
      end
  end.

(** The inner loop over [col_map.items()] for one row. *)
Fixpoint fill_row (items : list (string * nat)) (row_values : list cell)
    (rec : record) : result record :=
  match items with
  | [] => Ok rec
  | (col_name, col_idx) :: items' =>
      if String.eqb col_name "try_now_button" || String.eqb col_name "name"
      then fill_row items' row_values rec
      else
        c <- index row_values col_idx ;;
        let text_ := strip (lower (text c)) in
        v <- convert_cell col_name text_ ;;
        fill_row items' row_values
          (match v with
           | Some x => dict_set col_name x rec
           | None => rec
           end)
  end.

Fixpoint extract_rows (col_map : dict nat) (rows : list (list cell))
    (model_map : dict record) : result (dict record) :=
  match rows with
  | [] => Ok model_map
  | row_values :: rows' =>
      model_name <- row_model_name col_map row_values ;;
      rec <- fill_row col_map row_values [] ;;
      extract_rows col_map rows' (dict_set model_name rec model_map)
  end.

(** [_extract_table_data] *)
Definition _extract_table_data (t : table)
    (desired_col_names : list (string * string)) (col_map_input : dict nat)
  : result (dict record) :=
  let col_names := _extract_col_names t in
  let col_map := build_col_map col_names desired_col_names col_map_input in
  if negb (dict_mem "name" col_map) && negb (dict_mem "try_now_button" col_map)
  then Raise ValueError
  else extract_rows col_map (tl (tr t)) [].

(** ** Scrapers, on the tables already fetched *)

(** The loop body of lines 410-417: the record is updated in place. *)
Definition default_token_limits (model_dict : record) : record :=
  match dict_get "max_input_tokens" model_dict with
  | Some max_in =>
      let d1 :=
        match dict_get "max_output_tokens" model_dict with
        | None => dict_set "max_output_tokens" max_in model_dict
        | Some v =>
            if is_placeholder v
            then dict_set "max_output_tokens" max_in model_dict
            else model_dict
        end in
      let max_out :=
        match dict_get "max_output_tokens" d1 with
        | Some v => v
        | None => max_in
        end in
      match dict_get "max_tokens" d1 with
      | None => dict_set "max_tokens" max_out d1
      | Some v =>
          if is_placeholder v then dict_set "max_tokens" max_out d1 else d1
      end
  | None => model_dict
  end.

Definition context_window_cols : list (string * string) :=
  [("model id", "name"); ("context window", "max_input_tokens");
   ("completion tokens", "max_output_tokens");
   ("completion tokens", "max_tokens")].

(** [scrape_groq_context_window], from [soup.find_all("table")] on. *)
Fixpoint scrape_groq_context_window_from (tables : list table)
    (out : dict record) : result (dict record) :=
  match tables with
  | [] => Ok out
  | context_window_table :: tables' =>
      context_window_dict <-
        _extract_table_data context_window_table context_window_cols [] ;;
      let processed :=
        map (fun kv => (fst kv, default_token_limits (snd kv)))
            context_window_dict in
      scrape_groq_context_window_from tables' (dict_union out processed)
  end.

Definition scrape_groq_context_window (tables : list table)
  : result (dict record) :=
  scrape_groq_context_window_from tables [].

(** ** Aggregator *)

(** Lines 512-517: the union of the four per-category records. *)
Definition union_record
    (pricing capabilities context_window reasoning_models : dict record)
    (model_name : string) : record :=
  dict_union
    (dict_union
       (dict_union (dict_get_or_empty model_name pricing)
                   (dict_get_or_empty model_name capabilities))
       (dict_get_or_empty model_name context_window))
    (dict_get_or_empty model_name reasoning_models).

(** Lines 519-531: the mode of a record, [None] when it is dropped. *)
Definition classify (model : string) (r : record) : option record :=
  if dict_mem "input_cost_per_token" r then
    Some (dict_set "mode" (VStr "chat") r)
  else if dict_mem "input_cost_per_second" r then
    Some (dict_set "mode" (VStr "audio_transcription")
            (dict_set "output_cost_per_second" (VFloat float_zero) r))
  else if contains "tts" model then
    let r' := dict_set "mode" (VStr "audio_speech") r in
    if negb (dict_mem "input_cost_per_character" r') then None else Some r'
  else None.

Definition schema : list string :=
  ["max_tokens"; "max_input_tokens"; "max_output_tokens";
   "input_cost_per_token"; "output_cost_per_token";
   "input_cost_per_second"; "output_cost_per_second";
   "input_cost_per_character"; "litellm_provider"; "mode";
   "supports_function_calling"; "supports_response_schema";
   "supports_reasoning"; "supports_tool_choice"].

(** Lines 536-558: the fields of the schema, in its order, without the
    unset ones. *)
Fixpoint project (fields : list string) (r : record) : record :=
  match fields with
  | [] => []
  | k :: fields' =>
      match dict_get k r with
      | Some v => (k, v) :: project fields' r
      | None => project fields' r
      end
  end.

(** One turn of the loop of [scrape_groq_main]. *)
Definition aggregate_model
    (pricing capabilities context_window reasoning_models : dict record)
    (total : dict record) (model_name : string) : dict record :=
  let model := "groq/" ++ model_name in
  let merged :=
    union_record pricing capabilities context_window reasoning_models
      model_name in
  let total1 := dict_set model merged total in
  match classify model merged with
  | None => dict_pop model total1
  | Some r =>
      let r' := dict_set "litellm_provider" (VStr "groq") r in
      dict_set model (project schema r') total1
  end.

(** [scrape_groq_main], from the four scraped dictionaries on;
    [all_models] is the key set in the order the loop visits it. *)
Definition scrape_groq_main
    (pricing capabilities context_window reasoning_models : dict record)
    (all_models : list string) : dict record :=
  fold_left
    (aggregate_model pricing capabilities context_window reasoning_models)
    all_models [].

(** [all_models] enumerates the union of the four key sets, each once. *)
Definition is_key_union
    (pricing capabilities context_window reasoning_models : dict record)
    (all_models : list string) : Prop :=
  NoDup all_models /\
  forall k, In k all_models <->
    In k (keys pricing) \/ In k (keys capabilities) \/
    In k (keys context_window) \/ In k (keys reasoning_models).

(** ** [json.dumps(record, indent=4)] *)

Definition hex_digit (n : nat) : ascii :=
  if Nat.ltb n 10 then ascii_of_nat (48 + n) else ascii_of_nat (87 + n).

(** One character inside a JSON string, [ensure_ascii] being on. *)
Definition json_escape_char (c : ascii) : string :=
  let n := nat_of_ascii c in
  if Nat.eqb n 34 then "\" ++ String c EmptyString
  else if Nat.eqb n 92 then "\\"
  else if Nat.eqb n 10 then "\n"
  else if Nat.eqb n 13 then "\r"
  else if Nat.eqb n 9 then "\t"
  else if Nat.eqb n 8 then "\b"
  else if Nat.eqb n 12 then "\f"
  else if Nat.leb 32 n && Nat.leb n 126 then String c EmptyString
  else "\u00" ++ String (hex_digit (n / 16))
                   (String (hex_digit (n mod 16)) EmptyString).

Fixpoint json_escape (s : string) : string :=
  match s with
  | EmptyString => EmptyString
  | String c s' => json_escape_char c ++ json_escape s'
  end.

Definition quote : string := String (ascii_of_nat 34) EmptyString.

Definition json_string (s : string) : string :=
  quote ++ json_escape s ++ quote.

Definition json_int (n : Z) : string :=
  NilZero.string_of_int (Z.to_int n).

Definition json_value (v : value) : string :=
  match v with
  | VFloat x => float_repr x
  | VInt n => json_int n
  | VBool true => "true"
  | VBool false => "false"
  | VStr s => json_string s
  end.

Definition newline : string := String (ascii_of_nat 10) EmptyString.

(** The members of an object, each on a line indented by [ind]. *)
Fixpoint json_members (ind : string) (r : record) : string :=
  match r with
  | [] => EmptyString
  | [(k, v)] => ind ++ json_string k ++ ": " ++ json_value v
  | (k, v) :: r' =>
      ind ++ json_string k ++ ": " ++ json_value v ++ "," ++ newline
      ++ json_members ind r'
  end.

(** A record printed with [indent=4] where the current indentation is
    [ind]. *)
Definition json_object (ind : string) (r : record) : string :=
  match r with
  | [] => "{}"
  | _ => "{" ++ newline ++ json_members (ind ++ "    ") r ++ newline
         ++ ind ++ "}"
  end.

Definition json_dumps (r : record) : string := json_object "" r.

(** A line boundary of [str.splitlines]. *)
Definition is_linebreak (c : ascii) : bool :=
  let n := nat_of_ascii c in
  (Nat.leb 10 n && Nat.leb n 13) || (Nat.leb 28 n && Nat.leb n 30)
  || Nat.eqb n 133.

(** [s.splitlines()]: CR LF is one boundary, and a final boundary opens no
    further line. *)
Fixpoint splitlines_from (s cur : string) : list string :=
  match s with
  | EmptyString =>
      match cur with
      | EmptyString => []
      | _ => [cur]
      end
  | String c s' =>
      if is_linebreak c then
        cur ::
        match s' with
        | String c' s'' =>
            if Nat.eqb (nat_of_ascii c) 13 && Nat.eqb (nat_of_ascii c') 10
            then splitlines_from s'' EmptyString
            else splitlines_from s' EmptyString
        | EmptyString => []
        end
      else splitlines_from s' (cur ++ String c EmptyString)
  end.

Definition splitlines (s : string) : list string :=
  splitlines_from s EmptyString.

(** The loop of lines 176-182 over [enumerate(lines)], [n] being
    [len(lines)] and [i] the index of the head of [lines]. *)
Fixpoint indent_lines (lines : list string) (i n : nat) : string :=
  match lines with
  | [] => EmptyString
  | line :: lines' =>
      (if negb (Nat.eqb i 0) && negb (Nat.eqb (S i) n)
       then "    " ++ line ++ newline
       else if Nat.eqb i 0 then line ++ newline
       else "    " ++ line)
      ++ indent_lines lines' (S i) n
  end.

(** [new_model_json] of lines 174-182 and 248-256. *)
Definition format_block (r : record) : string :=
  let lines := splitlines (json_dumps r) in
  indent_lines lines 0 (List.length lines).

(** ** The regular expressions of the merger

    Both patterns are sequences of single-character items, plain or
    starred, so a pattern is a list of items.  [DOTALL] is on: the dot
    matches every character. *)

Inductive char_class : Type :=
| Lit (c : ascii)
| AnyChar
| SpaceChar.

Inductive item : Type :=
| One (k : char_class)
| Star (k : char_class)
| LazyStar (k : char_class).

Definition class_match (k : char_class) (a : ascii) : bool :=
  match k with
  | Lit c => Ascii.eqb c a
  | AnyChar => true
  | SpaceChar => is_space a
  end.

(** The match of pattern [p] at the start of [s] that the backtracking
    matcher finds first; the result is the text after the match. *)
Fixpoint match_here (p : list item) : string -> option string :=
  match p with
  | [] => fun s => Some s
  | One k :: p' =>
      fun s =>
        match s with
        | String a s' => if class_match k a then match_here p' s' else None
        | EmptyString => None
        end
  | Star k :: p' =>
      fix star (s : string) : option string :=
        match s with
        | String a s' =>
            if class_match k a then
              match star s' with
              | Some rest => Some rest
              | None => match_here p' s
              end
            else match_here p' s
        | EmptyString => match_here p' s
        end
  | LazyStar k :: p' =>
      fix lazy (s : string) : option string :=
        match match_here p' s with
        | Some rest => Some rest
        | None =>
            match s with
            | String a s' => if class_match k a then lazy s' else None
            | EmptyString => None
            end
        end
  end.

(** The replacement template of [re.sub]: the escapes of Python's
    [parse_template].  References to groups ([\g], [\0]-[\9]) are not
    modelled. *)
Fixpoint expand_template (repl : string) : result string :=
  match repl with
  | EmptyString => Ok EmptyString
  | String c rest =>
      if Nat.eqb (nat_of_ascii c) 92 then
        match rest with
        | EmptyString => Raise ReError
        | String e rest' =>
            let n := nat_of_ascii e in
            let simple (code : nat) :=
              t <- expand_template rest' ;; Ok (String (ascii_of_nat code) t) in
            if Nat.eqb n 97 then simple 7          (* \a *)
            else if Nat.eqb n 98 then simple 8     (* \b *)
            else if Nat.eqb n 102 then simple 12   (* \f *)
            else if Nat.eqb n 110 then simple 10   (* \n *)
            else if Nat.eqb n 114 then simple 13   (* \r *)
            else if Nat.eqb n 116 then simple 9    (* \t *)
            else if Nat.eqb n 118 then simple 11   (* \v *)
            else if Nat.eqb n 92 then simple 92    (* \\ *)
            else if Nat.eqb n 103 || is_digit e then Raise NotModelled
            else if (Nat.leb 65 n && Nat.leb n 90)
                    || (Nat.leb 97 n && Nat.leb n 122)
            then Raise ReError
            else t <- expand_template rest' ;; Ok (String c (String e t))
        end
      else t <- expand_template rest ;; Ok (String c t)
  end.

(** The scan of [re.sub]: matches are taken leftmost first and do not
    overlap; [skip] counts the characters of a match still to be dropped.
    No pattern here matches the empty string. *)
Fixpoint sub_from (p : list item) (repl s : string) (skip : nat) : string :=
  match s with
  | EmptyString => EmptyString
  | String c s' =>
      match skip with
      | S k => sub_from p repl s' k
      | O =>
          match match_here p s with
          | Some rest =>
              repl ++ sub_from p repl s'
                        (String.length s' - String.length rest)
          | None => String c (sub_from p repl s' 0)
          end
      end
  end.

(** [re.sub(p, repl, s, flags=re.DOTALL)] *)
Definition re_sub (p : list item) (repl s : string) : result string :=
  t <- expand_template repl ;; Ok (sub_from p t s 0).

(** A character with a meaning of its own in a pattern. *)
Definition is_special (c : ascii) : bool :=
  has_char c "\^$.|?*+()[]{}".

(** A string spliced unescaped into a pattern: a dot matches any
    character; the other special characters are not modelled. *)
Fixpoint raw_pattern (s : string) : result (list item) :=
  match s with
  | EmptyString => Ok []
  | String c s' =>
      p <- raw_pattern s' ;;
      if Ascii.eqb c "." then Ok (One AnyChar :: p)
      else if is_special c then Raise NotModelled
      else Ok (One (Lit c) :: p)
  end.

(** [re.escape(s)] spliced into a pattern: every character stands for
    itself. *)
Fixpoint literal_pattern (s : string) : list item :=
  match s with
  | EmptyString => []
  | String c s' => One (Lit c) :: literal_pattern s'
  end.

(** ["{id}":\s*\{.*?\n\s*\},] with [id] unescaped (lines 187 and 262). *)
Definition block_pattern (id : string) : result (list item) :=
  p <- raw_pattern id ;;
  Ok (literal_pattern quote ++ p ++ literal_pattern (quote ++ ":")
      ++ [Star SpaceChar; One (Lit "{"); LazyStar AnyChar;
          One (Lit (ascii_of_nat 10)); Star SpaceChar; One (Lit "}");
          One (Lit ",")])%list.

(** ["{re.escape(next)}":\s*\{] (line 208). *)
Definition opening_pattern (next_model : string) : list item :=
  (literal_pattern (quote ++ next_model ++ quote ++ ":")
   ++ [Star SpaceChar; One (Lit "{")])%list.

(** ** Raw-text merger *)

Fixpoint insert_sorted (k : string) (l : list string) : list string :=
  match l with
  | [] => [k]
  | h :: t => if String.leb k h then k :: l else h :: insert_sorted k t
  end.

(** [l.sort()] on strings: ascending code-point order. *)
Definition sort_keys (l : list string) : list string :=
  fold_right insert_sorted [] l.

Fixpoint index_from (k : string) (l : list string) (i : nat) : result nat :=
  match l with
  | [] => Raise ValueError
  | h :: t => if String.eqb h k then Ok i else index_from k t (S i)
  end.

(** [l.index(k)] *)
Definition list_index (k : string) (l : list string) : result nat :=
  index_from k l 0.

(** One turn of the loop of [_insert_dict_in_raw_json] (lines 173-214). *)
Definition insert_one (local_data : dict record) (local_data_raw : string)
    (update_model_id : string) (updated_model_dict : record)
  : result string :=
  let new_model_json := format_block updated_model_dict in
  if dict_mem update_model_id local_data then
    p <- block_pattern update_model_id ;;
    re_sub p
      (quote ++ update_model_id ++ quote ++ ": " ++ new_model_json ++ ",")
      local_data_raw
  else
    let model_keys := sort_keys (keys local_data ++ [update_model_id]) in
    new_model_index <- list_index update_model_id model_keys ;;
    if Nat.eqb new_model_index (List.length model_keys - 1) then
      Ok (local_data_raw ++ quote ++ update_model_id ++ quote ++ ": "
          ++ new_model_json ++ "," ++ newline)
    else
      next_model <- index model_keys (new_model_index + 1) ;;
      re_sub (opening_pattern next_model)
        (quote ++ update_model_id ++ quote ++ ": " ++ new_model_json ++ ","
         ++ newline ++ "    " ++ quote ++ next_model ++ quote ++ ": {")
        local_data_raw.

(** [_insert_dict_in_raw_json]: the returned text (the list of new
    models is only printed). *)
Fixpoint _insert_dict_in_raw_json (remote_data : dict record)
    (local_data : dict record) (local_data_raw : string) : result string :=
  match remote_data with
  | [] => Ok local_data_raw
  | (update_model_id, updated_model_dict) :: remote_data' =>
      raw' <- insert_one local_data local_data_raw update_model_id
                updated_model_dict ;;
      _insert_dict_in_raw_json remote_data' local_data raw'
  end.

(** One turn of the loop of [_update_deprecated_models_in_raw_json]
    (lines 239-266). *)
Definition deprecate_one (local_data : dict record) (local_data_raw : string)
    (name : string) (date_dict : record) : result string :=
  match dict_get name local_data with
  | None => Ok local_data_raw
  | Some local_record =>
      if dict_mem "deprecation_date" local_record then Ok local_data_raw
      else
        let updated_model_dict := dict_union local_record date_dict in
        let new_model_json := format_block updated_model_dict in
        p <- block_pattern name ;;
        re_sub p (quote ++ name ++ quote ++ ": " ++ new_model_json ++ ",")
          local_data_raw
  end.

(** [_update_deprecated_models_in_raw_json] *)
Fixpoint _update_deprecated_models_in_raw_json
    (deprecation_data : dict record) (local_data : dict record)
    (local_data_raw : string) : result string :=
  match deprecation_data with
  | [] => Ok local_data_raw
  | (name, date_dict) :: deprecation_data' =>
      raw' <- deprecate_one local_data local_data_raw name date_dict ;;
      _update_deprecated_models_in_raw_json deprecation_data' local_data raw'
  end.

(** The two passes of [main] (lines 576-581). *)
Definition merge (remote_data deprecated_model_data local_data : dict record)
    (local_data_raw : string) : result string :=
  raw' <- _insert_dict_in_raw_json remote_data local_data local_data_raw ;;
  _update_deprecated_models_in_raw_json deprecated_model_data local_data raw'.

(** [json.dumps(registry, indent=4)] on a registry of flat records: the
    serialisation the merger's patterns are written for. *)
Fixpoint registry_members (d : dict record) : string :=
  match d with
  | [] => EmptyString
  | [(k, r)] => "    " ++ json_string k ++ ": " ++ json_object "    " r
  | (k, r) :: d' =>
      "    " ++ json_string k ++ ": " ++ json_object "    " r ++ ","
      ++ newline ++ registry_members d'
  end.

Definition registry_text (d : dict record) : string :=
  match d with
  | [] => "{}"
  | _ => "{" ++ newline ++ registry_members d ++ newline ++ "}"
  end.

(** Modelled from the spec: [load_local_data] of
    [workflows/auto_update_price_and_context_window_file.py], which is
    not among the sources.  The spec has the registry loaded once, as a
    parsed form and as its raw text; the one fact taken from it is that
    the text [json.dumps(d, indent=4)] is read back as [d]. *)
Definition loads_as (raw : string) (d : dict record) : Prop :=
  raw = registry_text d.

(** ** The token rule in two other wordings *)






(** No key occurs twice: what every Python [dict] satisfies. *)
Fixpoint wf_dict {V : Type} (d : dict V) : bool :=
  match d with
  | [] => true
  | (k, _) :: d' => negb (dict_mem k d') && wf_dict d'
  end.

(** ** Auxiliary notions of the statements *)



Fixpoint wf_records (d : dict record) : bool :=
  match d with
  | [] => true
  | (_, r) :: d' => wf_dict r && wf_records d'
  end.

(** The final record of a model that is kept. *)
Definition final_record (r : record) : record :=
  project schema (dict_set "litellm_provider" (VStr "groq") r).






(** The float operations of the closed instances: floating point plays
    no part in them, the float type is the unit type. *)
Definition no_float_of_str (s : string) : option unit := Some tt.
Definition no_float_div (x : unit) (d : Z) : unit := tt.
Definition no_format_8f (x : unit) : string := "0.00000000".
Definition no_float_repr (x : unit) : string := "0.0".

(** ** Sample data *)

Definition capabilities_cols : list (string * string) :=
  [("model id", "name"); ("tool use support?", "supports_tool_choice");
   ("tool use support?", "supports_function_calling");
   ("json mode support?", "supports_response_schema")].

(** A capabilities table whose support cells carry a footnote mark. *)
Definition footnote_table : table :=
  {| th := ["Model ID"; "Tool Use Support?"; "JSON Mode Support?"];
     tr := [[];
            [{| text := "llama-x"; href := None |};
             {| text := "Yes*"; href := None |};
             {| text := "Unknown"; href := None |}]] |}.

(** A registry of two models and the record scraped for a third. *)
Definition abc_local : dict record :=
  [("groq/a-model", [("max_tokens", VInt 8192); ("mode", VStr "chat")]);
   ("groq/c-model", [("max_tokens", VInt 4096); ("mode", VStr "chat")])].

Definition b_record : record :=
  [("max_tokens", VInt 100); ("litellm_provider", VStr "groq");
   ("mode", VStr "chat"); ("supports_reasoning", VBool true)].


(** A model that is both on sale and announced as deprecated. *)
Definition live_record : record :=
  [("max_tokens", VInt 8192); ("litellm_provider", VStr "groq");
   ("mode", VStr "chat")].

Definition live_record_dated : record :=
  [("max_tokens", VInt 8192); ("litellm_provider", VStr "groq");
   ("mode", VStr "chat"); ("deprecation_date", VStr "2025-06-01")].

Definition live_remote : dict record := [("groq/a-model", live_record)].

Definition live_deprecations : dict record :=
  [("groq/a-model", [("deprecation_date", VStr "2025-06-01")])].

Definition live_local : dict record :=
  [("groq/a-model", live_record); ("groq/z-model", live_record)].

Definition live_local_dated : dict record :=
  [("groq/a-model", live_record_dated); ("groq/z-model", live_record)].

(** Two identifiers that differ where one of them has a dot. *)
Definition dotted_local : dict record :=
  [("groq/llama-3.1", [("mode", VStr "chat")]);
   ("groq/llama-3x1",
    [("mode", VStr "chat"); ("deprecation_date", VStr "2024-01-01")]);
   ("groq/zz", [("mode", VStr "chat")])].

Definition dotted_deprecations : dict record :=
  [("groq/llama-3.1", [("deprecation_date", VStr "2025-06-01")])].

Definition dotted_result : dict record :=
  [("groq/llama-3.1",
    [("mode", VStr "chat"); ("deprecation_date", VStr "2025-06-01")]);
   ("groq/llama-3.1",
    [("mode", VStr "chat"); ("deprecation_date", VStr "2025-06-01")]);
   ("groq/zz", [("mode", VStr "chat")])].

(** Scraped categories of a chat model and a transcription model. *)
Definition two_pricing : dict record :=
  [("whisper-x", [("input_cost_per_second", VFloat float_zero)]);
   ("llama-x", [("input_cost_per_token", VFloat float_zero);
                ("max_tokens", VInt 1)])].

Definition two_capabilities : dict record :=
  [("llama-x", [("supports_tool_choice", VBool true);
                ("max_tokens", VInt 2)])].

Definition two_context_window : dict record :=
  [("llama-x", [("max_input_tokens", VInt 8192); ("max_tokens", VInt 3)])].

Definition two_reasoning : dict record :=
  [("llama-x", [("supports_reasoning", VBool true)])].

Definition two_models : list string := ["whisper-x"; "llama-x"].

(** ** The other scrapers, on the tables already located *)

Definition chat_pricing_cols : list (string * string) :=
  [("input token price", "input_cost_per_token");
   ("output token price", "output_cost_per_token")].

(** [scrape_groq_pricing], from the three tables found under the
    headings on: the language models, the text-to-speech models and the
    speech recognition models. *)
Definition scrape_groq_pricing (chat_models_table tts_models_table
    asr_models_table : table) : result (dict record) :=
  out <- _extract_table_data chat_models_table chat_pricing_cols
           [("try_now_button", 4)] ;;
  tts <- _extract_table_data tts_models_table
           [("price", "input_cost_per_character")] [("try_now_button", 3)] ;;
  let out := dict_union out tts in
  asr <- _extract_table_data asr_models_table
           [("price", "input_cost_per_second")] [("try_now_button", 3)] ;;
  Ok (dict_union out asr).

(** [scrape_groq_capabilities], from [soup.find("table")] on. *)
Definition scrape_groq_capabilities (capabilities_table : table)
  : result (dict record) :=
  _extract_table_data capabilities_table
    [("model id", "name"); ("tool use support?", "supports_tool_choice");
     ("tool use support?", "supports_function_calling");
     ("json mode support?", "supports_response_schema")] [].

(** [scrape_groq_reasoning_models], from [soup.find("table")] on: every
    extracted record is replaced by the one flag. *)
Definition scrape_groq_reasoning_models (reasoning_models_table : table)
  : result (dict record) :=
  reasoning_models_dict <-
    _extract_table_data reasoning_models_table [("model id", "name")] [] ;;
  Ok (map (fun kv => (fst kv, [("supports_reasoning", VBool true)]))
          reasoning_models_dict).

(** The first loop of [scrape_groq_deprecated_models] over
    [soup.find_all("table")]. *)
Fixpoint deprecated_tables (tables : list table) (total : dict record)
  : result (dict record) :=
  match tables with
  | [] => Ok total
  | t :: tables' =>
      d <- _extract_table_data t [("shutdown date", "deprecation_date")]
             [("name", 0)] ;;
      deprecated_tables tables' (dict_union total d)
  end.

(** Its second loop: [out[f"groq/{k}"] = v]. *)
Definition prefix_groq (total : dict record) : dict record :=
  fold_left (fun out kv => dict_set ("groq/" ++ fst kv) (snd kv) out)
    total [].

(** [scrape_groq_deprecated_models] *)
Definition scrape_groq_deprecated_models (tables : list table)
  : result (dict record) :=
  total <- deprecated_tables tables [] ;;
  Ok (prefix_groq total).

(** ** Auxiliary notions of the further properties *)

(** Header [col] holds a label that [desired_col_names] maps to [n]. *)
Definition header_matches (desired_col_names : list (string * string))
    (n col : string) : bool :=
  existsb (fun d => String.eqb (snd d) n && contains (fst d) col)
    desired_col_names.

(** The index [n] ends with after the headers [cols], the first of which
    has index [i], when it had [acc] before them. *)
Fixpoint last_header_from (desired_col_names : list (string * string))
    (n : string) (cols : list string) (i : nat) (acc : option nat)
  : option nat :=
  match cols with
  | [] => acc
  | col :: cols' =>
      last_header_from desired_col_names n cols' (S i)
        (if header_matches desired_col_names n col then Some i else acc)
  end.

Fixpoint none_matches (desired_col_names : list (string * string))
    (n : string) (cols : list string) : bool :=
  match cols with
  | [] => true
  | col :: cols' =>
      negb (header_matches desired_col_names n col)
      && none_matches desired_col_names n cols'
  end.


(** [key] and [r] are the entry of a kept model of [all_models], with its
    final record. *)
Definition is_entry
    (pricing capabilities context_window reasoning_models : dict record)
    (all_models : list string) (key : string) (r : record) : Prop :=
  exists name r0,
    In name all_models /\ key = "groq/" ++ name /\
    classify key
      (union_record pricing capabilities context_window reasoning_models
         name) = Some r0 /\
    r = final_record r0.

(** The text holds no line boundary of [str.splitlines]. *)
Fixpoint no_linebreak (s : string) : bool :=
  match s with
  | EmptyString => true
  | String c s' => negb (is_linebreak c) && no_linebreak s'
  end.

(** The lines of the members of an object. *)
Fixpoint member_lines (ind : string) (r : record) : list string :=
  match r with
  | [] => []
  | [(k, v)] => [ind ++ json_string k ++ ": " ++ json_value v]
  | (k, v) :: r' =>
      (ind ++ json_string k ++ ": " ++ json_value v ++ ",")
      :: member_lines ind r'
  end.


(** ** Sample tables *)

Definition plain (s : string) : cell := {| text := s; href := None |}.

Definition linked (s link : string) : cell :=
  {| text := s; href := Some link |}.

Definition chat_table : table :=
  {| th := ["AI Model"; "Current Speed"; "Input Token Price";
            "Output Token Price"; ""];
     tr := [[];
            [plain "Llama X"; plain "750"; plain "$0.59"; plain "$0.79";
             linked "Try Now"
               "https://console.groq.com/playground?model=llama-x"]] |}.

Definition tts_table : table :=
  {| th := ["AI Model"; "Characters"; "Price"; ""];
     tr := [[];
            [plain "Voice X"; plain "1M"; plain "$50.00";
             linked "Try Now"
               "https://console.groq.com/playground?model=voice-tts"]] |}.

(** A speech table that lists the language model as well. *)
Definition asr_table : table :=
  {| th := ["AI Model"; "Speed"; "Price Per Hour"; ""];
     tr := [[];
            [plain "Whisper X"; plain "200x"; plain "$0.111";
             linked "Try Now"
               "https://console.groq.com/playground?model=whisper-x"];
            [plain "Llama X"; plain "100x"; plain "$0.5";
             linked "Try Now"
               "https://console.groq.com/playground?model=llama-x"]] |}.

Definition no_id_table : table :=
  {| th := ["Model"; "Price"];
     tr := [[]; [plain "llama-x"; plain "$0.59"]] |}.

Definition reasoning_table : table :=
  {| th := ["Model ID"; "Model"];
     tr := [[]; [plain "llama-x"; plain "Llama X"]] |}.

Definition deprecation_table : table :=
  {| th := ["Model ID"; "Shutdown Date"; "Replacement"];
     tr := [[];
            [plain "old-model"; plain "01/15/25"; plain "llama-x"];
            [plain "groq/odd-model"; plain "03/31/25"; plain "llama-x"]] |}.

Definition limits_table : table :=
  {| th := ["Model ID"; "Developer"; "Context Window (tokens)";
            "Max Completion Tokens"];
     tr := [[];
            [plain "llama-x"; plain "Meta"; plain "128k"; plain "-"];
            [plain "gemma-x"; plain "Google"; plain "8,192";
             plain "4,096"]] |}.

(** A record with a character outside ASCII. *)
Definition accent_record : record :=
  [("mode", VStr ("caf" ++ String (ascii_of_nat 233) ""))].


(** * Properties *)

(** ** Strings *)

Lemma append_nil_r (s : string) : s ++ "" = s.
Proof. induction s; simpl; congruence. Qed.

Lemma append_assoc (a b c : string) : (a ++ b) ++ c = a ++ (b ++ c).
Proof. induction a; simpl; congruence. Qed.

Lemma split_from_piece sep_c s cur rest :
  has_char sep_c s = false ->
  split_from (String sep_c "") (s ++ String sep_c rest) cur 0
  = (cur ++ s) :: split_from (String sep_c "") rest "" 0.
Proof.
  revert cur. induction s as [|a s IH]; intros cur H; simpl in *.
  - rewrite Ascii.eqb_refl, append_nil_r. reflexivity.
  - apply orb_false_iff in H as [Ha Hs].
    rewrite Ascii.eqb_sym, Ha. simpl.
    rewrite IH by exact Hs. now rewrite append_assoc.
Qed.

Lemma split_from_last sep_c s cur :
  has_char sep_c s = false ->
  split_from (String sep_c "") s cur 0 = [cur ++ s].
Proof.
  revert cur. induction s as [|a s IH]; intros cur H; simpl in *.
  - now rewrite append_nil_r.
  - apply orb_false_iff in H as [Ha Hs].
    rewrite Ascii.eqb_sym, Ha. simpl.
    rewrite IH by exact Hs. now rewrite append_assoc.
Qed.

(** ** Dates *)

(** C8: a date [MM/DD/YY], its three parts free of slashes, is rewritten
    to [20YY-MM-DD]: the century is always the 21st. *)
Theorem convert_date_mdy (mm dd yy : string) :
  has_char "/" mm = false -> has_char "/" dd = false ->
  has_char "/" yy = false ->
  _convert_date (mm ++ "/" ++ dd ++ "/" ++ yy)
  = Ok ("20" ++ yy ++ "-" ++ mm ++ "-" ++ dd).
Proof.
  intros Hm Hd Hy. unfold _convert_date, split.
  change (mm ++ "/" ++ dd ++ "/" ++ yy)
    with (mm ++ String "/" (dd ++ String "/" yy)).
  rewrite split_from_piece by exact Hm.
  rewrite split_from_piece by exact Hd.
  rewrite split_from_last by exact Hy.
  reflexivity.
Qed.

Example convert_date_boundary : _convert_date "12/31/99" = Ok "2099-12-31".
Proof. reflexivity. Qed.

(** ** Price cells *)

Example price_text_first_line :
  price_text ("$0.59*" ++ newline ++ "per 1m tokens") = "0.59".
Proof. reflexivity. Qed.

(** The divisor is 1,000,000 for a per-token price and 3600 for a
    per-second price. *)
Lemma cost_cell_divisor (text_ : string) :
  convert_cell "input_cost_per_token" text_
  = (x <- _convert_price text_ 1000000 ;; Ok (Some (VFloat x))) /\
  convert_cell "input_cost_per_second" text_
  = (x <- _convert_price text_ 3600 ;; Ok (Some (VFloat x))).
Proof. split; reflexivity. Qed.

(** ** Support cells *)

Example supports_yes :
  convert_cell "supports_tool_choice" "yes" = Ok (Some (VBool true)).
Proof. reflexivity. Qed.

Example supports_no :
  convert_cell "supports_tool_choice" "no" = Ok (Some (VBool false)).
Proof. reflexivity. Qed.

Example supports_maybe :
  convert_cell "supports_tool_choice" "maybe" = Raise ValueError.
Proof. reflexivity. Qed.

(** C2: the test before the error is a substring test, the value an
    equality test.  Every text that contains "yes" or "no" is accepted,
    and every accepted text other than "yes" itself is stored as
    [False]: nothing is raised for [yes*] or [unknown]. *)
Theorem supports_cell_substring_accepted (col_name text_ : string) :
  contains "cost" col_name = false ->
  contains "supports" col_name = true ->
  contains "yes" text_ = true \/ contains "no" text_ = true ->
  convert_cell col_name text_ = Ok (Some (VBool (String.eqb text_ "yes"))).
Proof.
  intros Hc Hs Hyn. unfold convert_cell. rewrite Hc, Hs.
  destruct Hyn as [H|H]; rewrite H.
  - reflexivity.
  - now rewrite andb_false_r.
Qed.

(** The same on a table: a row reading [Yes*] and [Unknown] is extracted
    with all its flags [False]. *)
Lemma footnote_table_extracted :
  _extract_table_data footnote_table capabilities_cols []
  = Ok [("llama-x",
         [("supports_tool_choice", VBool false);
          ("supports_function_calling", VBool false);
          ("supports_response_schema", VBool false)])].
Proof. reflexivity. Qed.

(** ** Token cells *)

Example tokens_128k :
  convert_cell "max_input_tokens" "128k" = Ok (Some (VInt 128000)).
Proof. reflexivity. Qed.

Example tokens_4096 :
  convert_cell "max_input_tokens" "4,096" = Ok (Some (VInt 4096)).
Proof. reflexivity. Qed.

Example tokens_na : convert_cell "max_input_tokens" "n/a" = Ok None.
Proof. reflexivity. Qed.

(** Replacing a one-character [old] is a character-by-character map. *)
Lemma replace_char_cons (c : ascii) (new : string) (a : ascii) (s : string) :
  replace (String c "") new (String a s)
  = (if Ascii.eqb c a then new else String a "") ++ replace (String c "") new s.
Proof.
  unfold replace. simpl.
  destruct (Ascii.eqb c a); reflexivity.
Qed.

Lemma replace_nil (old new : string) : replace old new "" = "".
Proof. reflexivity. Qed.










(** A footnote mark written as a superscript digit passes [isdigit] and
    fails [int]: the cell [128k] followed by a superscript one raises. *)
Lemma tokens_cell_superscript :
  convert_cell "max_input_tokens" ("128k" ++ String (ascii_of_nat 185) "")
  = Raise ValueError.
Proof. reflexivity. Qed.

(** ** Dictionaries *)

Lemma dict_get_set_eq {V : Type} (k : string) (v : V) (d : dict V) :
  dict_get k (dict_set k v d) = Some v.
Proof.
  induction d as [|[k' v'] d IH]; simpl.
  - now rewrite String.eqb_refl.
  - destruct (String.eqb k k') eqn:E; simpl; rewrite E; [reflexivity|exact IH].
Qed.

Lemma dict_get_set_neq {V : Type} (k k0 : string) (v : V) (d : dict V) :
  k <> k0 -> dict_get k0 (dict_set k v d) = dict_get k0 d.
Proof.
  intros Hne. induction d as [|[k' v'] d IH]; simpl.
  - destruct (String.eqb_spec k0 k) as [->|_]; [contradiction|reflexivity].
  - destruct (String.eqb_spec k k') as [->|Hk]; simpl.
    + destruct (String.eqb_spec k0 k') as [->|_]; [contradiction|reflexivity].
    + destruct (String.eqb k0 k'); [reflexivity|exact IH].
Qed.

Lemma dict_mem_set_neq {V : Type} (k k0 : string) (v : V) (d : dict V) :
  k <> k0 -> dict_mem k0 (dict_set k v d) = dict_mem k0 d.
Proof. intros H. unfold dict_mem. now rewrite dict_get_set_neq. Qed.

Lemma dict_mem_set_eq {V : Type} (k : string) (v : V) (d : dict V) :
  dict_mem k (dict_set k v d) = true.
Proof. unfold dict_mem. now rewrite dict_get_set_eq. Qed.

Lemma dict_get_pop_neq {V : Type} (k k0 : string) (d : dict V) :
  k <> k0 -> dict_get k0 (dict_pop k d) = dict_get k0 d.
Proof.
  intros Hne. induction d as [|[k' v'] d IH]; simpl; [reflexivity|].
  destruct (String.eqb_spec k k') as [->|Hk]; simpl.
  - destruct (String.eqb_spec k0 k') as [->|_]; [contradiction|reflexivity].
  - destruct (String.eqb k0 k'); [reflexivity|exact IH].
Qed.

Lemma dict_get_pop_eq {V : Type} (k : string) (d : dict V) :
  wf_dict d = true -> dict_get k (dict_pop k d) = None.
Proof.
  induction d as [|[k' v'] d IH]; simpl; [reflexivity|].
  intros Hwf. apply andb_true_iff in Hwf as [Hk' Hd].
  destruct (String.eqb_spec k k') as [->|Hk]; simpl.
  - unfold dict_mem in Hk'. destruct (dict_get k' d); [discriminate|reflexivity].
  - destruct (String.eqb_spec k k') as [->|_]; [contradiction|]. now apply IH.
Qed.

Lemma wf_dict_set {V : Type} (k : string) (v : V) (d : dict V) :
  wf_dict d = true -> wf_dict (dict_set k v d) = true.
Proof.
  induction d as [|[k' v'] d IH]; simpl; [reflexivity|].
  intros Hwf. apply andb_true_iff in Hwf as [Hk' Hd].
  destruct (String.eqb_spec k k') as [->|Hk]; simpl.
  - now rewrite Hk', Hd.
  - rewrite dict_mem_set_neq by exact Hk. now rewrite Hk', IH.
Qed.

Lemma dict_mem_pop {V : Type} (k k0 : string) (d : dict V) :
  dict_mem k0 d = false -> dict_mem k0 (dict_pop k d) = false.
Proof.
  unfold dict_mem. induction d as [|[k' v'] d IH]; simpl; [reflexivity|].
  destruct (String.eqb k0 k') eqn:E0; [discriminate|].
  intros H. destruct (String.eqb k k'); simpl; [exact H|].
  rewrite E0. now apply IH.
Qed.

Lemma wf_dict_pop {V : Type} (k : string) (d : dict V) :
  wf_dict d = true -> wf_dict (dict_pop k d) = true.
Proof.
  induction d as [|[k' v'] d IH]; simpl; [reflexivity|].
  intros Hwf. apply andb_true_iff in Hwf as [Hk' Hd].
  destruct (String.eqb k k'); simpl; [exact Hd|].
  apply negb_true_iff in Hk'.
  rewrite (dict_mem_pop k k' d Hk'). now rewrite IH.
Qed.

(** In [a | b] a key of [b] has the value [b] gives it, any other key
    the value [a] gives it. *)
Lemma dict_get_union {V : Type} (k : string) (a b : dict V) :
  wf_dict b = true ->
  dict_get k (dict_union a b)
  = match dict_get k b with
    | Some v => Some v
    | None => dict_get k a
    end.
Proof.
  unfold dict_union. revert a.
  induction b as [|[k' v'] b IH]; intros a Hwf; simpl in *; [reflexivity|].
  apply andb_true_iff in Hwf as [Hk' Hb].
  rewrite IH by exact Hb.
  destruct (String.eqb_spec k k') as [->|Hk].
  - unfold dict_mem in Hk'.
    destruct (dict_get k' b); [discriminate|apply dict_get_set_eq].
  - destruct (dict_get k b); [reflexivity|].
    apply dict_get_set_neq. congruence.
Qed.

(** ** Context-window defaults *)

(** C7: a record with [max_input_tokens] gets that value as
    [max_output_tokens] when the latter is absent or "-", then the
    resulting [max_output_tokens] as [max_tokens] when the latter is
    absent or "-", and keeps every other field; a record without
    [max_input_tokens] is returned as it is. *)
Theorem default_token_limits_spec (model_dict : record) :
  match dict_get "max_input_tokens" model_dict with
  | None => default_token_limits model_dict = model_dict
  | Some max_in =>
      let max_out :=
        match dict_get "max_output_tokens" model_dict with
        | Some v => if is_placeholder v then max_in else v
        | None => max_in
        end in
      let max_tok :=
        match dict_get "max_tokens" model_dict with
        | Some v => if is_placeholder v then max_out else v
        | None => max_out
        end in
      dict_get "max_output_tokens" (default_token_limits model_dict)
      = Some max_out /\
      dict_get "max_tokens" (default_token_limits model_dict)
      = Some max_tok /\
      forall k, k <> "max_output_tokens" -> k <> "max_tokens" ->
        dict_get k (default_token_limits model_dict) = dict_get k model_dict
  end.
Proof.
  unfold default_token_limits.
  destruct (dict_get "max_input_tokens" model_dict) as [max_in|];
    [|reflexivity].
  cbv zeta.
  set (d1 := match dict_get "max_output_tokens" model_dict with
             | Some v => if is_placeholder v
                         then dict_set "max_output_tokens" max_in model_dict
                         else model_dict
             | None => dict_set "max_output_tokens" max_in model_dict
             end).
  set (max_out := match dict_get "max_output_tokens" model_dict with
                  | Some v => if is_placeholder v then max_in else v
                  | None => max_in
                  end).
  assert (H1 : dict_get "max_output_tokens" d1 = Some max_out).
  { subst d1 max_out.
    destruct (dict_get "max_output_tokens" model_dict) as [v|] eqn:E.
    - destruct (is_placeholder v); [apply dict_get_set_eq|exact E].
    - apply dict_get_set_eq. }
  assert (H2 : forall k, k <> "max_output_tokens" ->
                 dict_get k d1 = dict_get k model_dict).
  { intros k Hk. subst d1.
    destruct (dict_get "max_output_tokens" model_dict) as [v|].
    - destruct (is_placeholder v); [|reflexivity].
      apply dict_get_set_neq. congruence.
    - apply dict_get_set_neq. congruence. }
  rewrite H1.
  rewrite <- (H2 "max_tokens") by discriminate.
  destruct (dict_get "max_tokens" d1) as [t|] eqn:Et.
  - destruct (is_placeholder t).
    + rewrite dict_get_set_neq by discriminate.
      rewrite dict_get_set_eq. repeat split; [exact H1|].
      intros k Hk1 Hk2. rewrite dict_get_set_neq by congruence. now apply H2.
    + repeat split; [exact H1|exact Et|]. intros k Hk1 _. now apply H2.
  - rewrite dict_get_set_neq by discriminate.
    rewrite dict_get_set_eq. repeat split; [exact H1|].
    intros k Hk1 Hk2. rewrite dict_get_set_neq by congruence. now apply H2.
Qed.

(** ** Aggregator *)

Lemma wf_get_or_empty (name : string) (d : dict record) :
  wf_records d = true -> wf_dict (dict_get_or_empty name d) = true.
Proof.
  unfold dict_get_or_empty.
  induction d as [|[k r] d IH]; simpl; [reflexivity|].
  intros H. apply andb_true_iff in H as [Hr Hd].
  destruct (String.eqb name k); [exact Hr|now apply IH].
Qed.

Lemma dict_get_project (k : string) (fields : list string) (r : record) :
  dict_get k (project fields r)
  = if existsb (String.eqb k) fields then dict_get k r else None.
Proof.
  induction fields as [|f fields IH]; simpl; [reflexivity|].
  destruct (dict_get f r) as [v|] eqn:Ef; simpl.
  - destruct (String.eqb_spec k f) as [->|_]; simpl; [now rewrite Ef|exact IH].
  - rewrite IH. destruct (String.eqb_spec k f) as [->|_]; simpl;
      [|reflexivity].
    rewrite Ef. now destruct (existsb (String.eqb f) fields).
Qed.

Lemma groq_prefix_inj (a b : string) : "groq/" ++ a = "groq/" ++ b -> a = b.
Proof. simpl. congruence. Qed.

Section Aggregate.

Variables pricing capabilities context_window reasoning_models : dict record.

Local Abbreviation step :=
  (aggregate_model pricing capabilities context_window reasoning_models).
Local Abbreviation merged :=
  (union_record pricing capabilities context_window reasoning_models).

Lemma aggregate_model_same (total : dict record) (name : string) :
  wf_dict total = true ->
  dict_get ("groq/" ++ name) (step total name)
  = option_map final_record (classify ("groq/" ++ name) (merged name)).
Proof.
  intros Hwf. unfold aggregate_model. cbv zeta.
  destruct (classify _ _) as [r|]; simpl option_map.
  - apply dict_get_set_eq.
  - apply dict_get_pop_eq. now apply wf_dict_set.
Qed.

Lemma aggregate_model_other (total : dict record) (name other : string) :
  name <> other ->
  dict_get ("groq/" ++ other) (step total name)
  = dict_get ("groq/" ++ other) total.
Proof.
  intros Hne. unfold aggregate_model. cbv zeta.
  assert (Hk : "groq/" ++ name <> "groq/" ++ other)
    by (intros E; apply Hne; now apply groq_prefix_inj).
  destruct (classify _ _) as [r|].
  - rewrite dict_get_set_neq by exact Hk.
    now rewrite dict_get_set_neq by exact Hk.
  - rewrite dict_get_pop_neq by exact Hk.
    now rewrite dict_get_set_neq by exact Hk.
Qed.

Lemma aggregate_model_wf (total : dict record) (name : string) :
  wf_dict total = true -> wf_dict (step total name) = true.
Proof.
  intros Hwf. unfold aggregate_model. cbv zeta.
  destruct (classify _ _) as [r|].
  - now repeat apply wf_dict_set.
  - apply wf_dict_pop. now apply wf_dict_set.
Qed.

Lemma fold_aggregate (all_models : list string) (total : dict record)
    (name : string) :
  NoDup all_models -> wf_dict total = true ->
  wf_dict (fold_left step all_models total) = true /\
  dict_get ("groq/" ++ name) (fold_left step all_models total)
  = if in_dec string_dec name all_models
    then option_map final_record (classify ("groq/" ++ name) (merged name))
    else dict_get ("groq/" ++ name) total.
Proof.
  revert total. induction all_models as [|m l IH]; intros total Hnd Hwf.
  - split; [exact Hwf|reflexivity].
  - inversion Hnd as [|? ? Hm Hl]; subst. simpl fold_left.
    destruct (IH (step total m) Hl (aggregate_model_wf total m Hwf))
      as [Hwf' Hget].
    split; [exact Hwf'|]. rewrite Hget.
    destruct (in_dec string_dec name (m :: l)) as [Hin|Hout];
      destruct (in_dec string_dec name l) as [Hin'|Hout']; try reflexivity.
    + destruct Hin as [->|Hin]; [|contradiction].
      now apply aggregate_model_same.
    + exfalso. apply Hout. now right.
    + apply aggregate_model_other. intros ->. apply Hout. now left.
Qed.

(** What [scrape_groq_main] returns for a model it visited. *)
Lemma scrape_groq_main_lookup (all_models : list string) (name : string) :
  NoDup all_models -> In name all_models ->
  dict_get ("groq/" ++ name)
    (scrape_groq_main pricing capabilities context_window reasoning_models
       all_models)
  = option_map final_record (classify ("groq/" ++ name) (merged name)).
Proof.
  intros Hnd Hin. unfold scrape_groq_main.
  destruct (fold_aggregate all_models [] name Hnd eq_refl) as [_ H].
  rewrite H.
  destruct (in_dec string_dec name all_models); [reflexivity|contradiction].
Qed.

End Aggregate.

(** C6: for a model the loop visits, the record starts as the union
    pricing | capabilities | context window | reasoning: a field has the
    value of the last of the four, in this order, that holds it; the
    entry returned for the model is built from that union. *)
Theorem aggregate_union_order
    (pricing capabilities context_window reasoning_models : dict record)
    (all_models : list string) (name k : string) :
  wf_records capabilities = true ->
  wf_records context_window = true ->
  wf_records reasoning_models = true ->
  is_key_union pricing capabilities context_window reasoning_models
    all_models ->
  In name all_models ->
  let merged :=
    union_record pricing capabilities context_window reasoning_models name in
  dict_get k merged
  = match dict_get k (dict_get_or_empty name reasoning_models) with
    | Some v => Some v
    | None =>
        match dict_get k (dict_get_or_empty name context_window) with
        | Some v => Some v
        | None =>
            match dict_get k (dict_get_or_empty name capabilities) with
            | Some v => Some v
            | None => dict_get k (dict_get_or_empty name pricing)
            end
        end
    end /\
  dict_get ("groq/" ++ name)
    (scrape_groq_main pricing capabilities context_window reasoning_models
       all_models)
  = option_map final_record (classify ("groq/" ++ name) merged).
Proof.
  intros Hc Hw Hr [Hnd _] Hin merged. split.
  - subst merged. unfold union_record.
    rewrite !dict_get_union by now apply wf_get_or_empty.
    reflexivity.
  - now apply scrape_groq_main_lookup.
Qed.

(** C10: a model whose union lacks [input_cost_per_token] and holds
    [input_cost_per_second] is returned with mode [audio_transcription]
    and with [output_cost_per_second] set to 0.0. *)
Theorem audio_transcription_output_cost
    (pricing capabilities context_window reasoning_models : dict record)
    (all_models : list string) (name : string) :
  is_key_union pricing capabilities context_window reasoning_models
    all_models ->
  In name all_models ->
  let merged :=
    union_record pricing capabilities context_window reasoning_models name in
  dict_mem "input_cost_per_token" merged = false ->
  dict_mem "input_cost_per_second" merged = true ->
  exists r,
    dict_get ("groq/" ++ name)
      (scrape_groq_main pricing capabilities context_window reasoning_models
         all_models) = Some r /\
    dict_get "mode" r = Some (VStr "audio_transcription") /\
    dict_get "output_cost_per_second" r = Some (VFloat float_zero).
Proof.
  intros [Hnd _] Hin merged Htok Hsec.
  rewrite (scrape_groq_main_lookup _ _ _ _ all_models name Hnd Hin).
  fold merged. unfold classify. rewrite Htok, Hsec. simpl option_map.
  eexists. split; [reflexivity|]. unfold final_record.
  rewrite !dict_get_project.
  change (existsb (String.eqb "mode") schema) with true.
  change (existsb (String.eqb "output_cost_per_second") schema) with true.
  cbv iota. split.
  - rewrite dict_get_set_neq by discriminate. apply dict_get_set_eq.
  - rewrite !dict_get_set_neq by discriminate. apply dict_get_set_eq.
Qed.

(** ** Identifier order and the sorted key list *)









Section SortedKeys.

Local Open Scope list_scope.

Variables id next : string.

Local Abbreviation below := (fun a : string => String.ltb a id = true).
Local Abbreviation above :=
  (fun b : string => String.ltb id b = true /\ String.leb next b = true).






End SortedKeys.


(** ** Substitution at the only match *)












Lemma has_char_app (c : ascii) (a b : string) :
  has_char c (a ++ b) = has_char c a || has_char c b.
Proof.
  induction a as [|x a IH]; simpl; [reflexivity|].
  now rewrite IH, orb_assoc.
Qed.

(** ** Inserting a new identifier *)




(** ** Deprecation pass *)

(** The deprecation pass leaves alone an identifier that is not local or
    has a date: its turn of the loop returns the text as it is. *)
Lemma deprecate_one_skips (local_data : dict record)
    (raw name : string) (date_dict : record) :
  (dict_get name local_data = None \/
   exists local_record, dict_get name local_data = Some local_record /\
     dict_mem "deprecation_date" local_record = true) ->
  deprecate_one local_data raw name date_dict = Ok raw.
Proof.
  unfold deprecate_one. intros [->|[local_record [-> ->]]]; reflexivity.
Qed.

(** C5: the identifier is spliced into the pattern unescaped, so the dot
    of [groq/llama-3.1] matches any character.  Giving that model its
    date also rewrites the block of [groq/llama-3x1], which had a date:
    the key is replaced and the date 2024-01-01 becomes 2025-06-01. *)
Theorem deprecation_rewrites_dated_record :
  _update_deprecated_models_in_raw_json dotted_deprecations dotted_local
    (registry_text dotted_local)
  = Ok (registry_text dotted_result).
Proof. vm_compute. reflexivity. Qed.

(** ** Running the merge again *)

(** C1: a model in both the remote data and the deprecation data gets
    its date in one run and loses it in the next, the registry being
    read back in between: the first run writes the local record with the
    date; in the second the insert pass writes the remote record, which
    has no date, and the deprecation pass, seeing a date in the parsed
    registry, skips the model. *)
Theorem merge_alternates :
  exists raw0 raw1 raw2,
    loads_as raw0 live_local /\
    merge live_remote live_deprecations live_local raw0 = Ok raw1 /\
    loads_as raw1 live_local_dated /\
    merge live_remote live_deprecations live_local_dated raw1 = Ok raw2 /\
    raw2 <> raw1 /\
    raw2 = raw0.
Proof.
  exists (registry_text live_local), (registry_text live_local_dated),
         (registry_text live_local).
  split; [reflexivity|].
  split; [vm_compute; reflexivity|].
  split; [reflexivity|].
  split; [vm_compute; reflexivity|].
  split; [vm_compute; discriminate|reflexivity].
Qed.

(** With the parsed registry held fixed instead, a new model is inserted
    once more by a second application. *)
Lemma merge_inserts_again :
  exists raw1 raw2,
    merge [("groq/b-model", b_record)] [] abc_local (registry_text abc_local)
    = Ok raw1 /\
    merge [("groq/b-model", b_record)] [] abc_local raw1 = Ok raw2 /\
    raw1 <> raw2.
Proof.
  eexists. eexists. split; [vm_compute; reflexivity|].
  split; [vm_compute; reflexivity|]. discriminate.
Qed.

(** * Further properties of the code *)

(** ** Dates and prices: edge behaviour *)

(** X1: a date text with no slash, or with one slash only, has fewer
    than three parts: [_convert_date] raises IndexError. *)
Theorem convert_date_too_few_parts (a b : string) :
  has_char "/" a = false -> has_char "/" b = false ->
  _convert_date a = Raise IndexError /\
  _convert_date (a ++ "/" ++ b) = Raise IndexError.
Proof.
  intros Ha Hb. unfold _convert_date, split. split.
  - rewrite split_from_last by exact Ha. reflexivity.
  - change (a ++ "/" ++ b) with (a ++ String "/" b).
    rewrite split_from_piece by exact Ha.
    rewrite split_from_last by exact Hb. reflexivity.
Qed.

(** X2: parts after the third are dropped: whatever follows a third
    slash has no effect on the date returned. *)
Theorem convert_date_extra_parts (mm dd yy rest : string) :
  has_char "/" mm = false -> has_char "/" dd = false ->
  has_char "/" yy = false ->
  _convert_date (mm ++ "/" ++ dd ++ "/" ++ yy ++ "/" ++ rest)
  = Ok ("20" ++ yy ++ "-" ++ mm ++ "-" ++ dd).
Proof.
  intros Hm Hd Hy. unfold _convert_date, split.
  change (mm ++ "/" ++ dd ++ "/" ++ yy ++ "/" ++ rest)
    with (mm ++ String "/" (dd ++ String "/" (yy ++ String "/" rest))).
  rewrite split_from_piece by exact Hm.
  rewrite split_from_piece by exact Hd.
  rewrite split_from_piece by exact Hy.
  reflexivity.
Qed.

Lemma has_char_replace_same (c : ascii) (s : string) :
  has_char c (replace (String c "") "" s) = false.
Proof.
  induction s as [|a s IH]; [reflexivity|].
  rewrite replace_char_cons.
  destruct (Ascii.eqb c a) eqn:E; [exact IH|].
  change (String a "" ++ replace (String c "") "" s)
    with (String a (replace (String c "") "" s)).
  simpl has_char. now rewrite Ascii.eqb_sym, E, IH.
Qed.

Lemma has_char_replace_other (c d : ascii) (s : string) :
  has_char c s = false -> has_char c (replace (String d "") "" s) = false.
Proof.
  induction s as [|a s IH]; intros H; [reflexivity|].
  simpl in H. apply orb_false_iff in H as [Ha Hs].
  rewrite replace_char_cons.
  destruct (Ascii.eqb d a); [now apply IH|].
  change (String a "" ++ replace (String d "") "" s)
    with (String a (replace (String d "") "" s)).
  simpl has_char. now rewrite Ha, IH.
Qed.

Lemma has_char_lstrip (c : ascii) (s : string) :
  has_char c s = false -> has_char c (lstrip s) = false.
Proof.
  induction s as [|a s IH]; intros H; [reflexivity|].
  simpl. destruct (is_space a); [|exact H].
  simpl in H. apply orb_false_iff in H as [_ Hs]. now apply IH.
Qed.

Lemma has_char_rstrip (c : ascii) (s : string) :
  has_char c s = false -> has_char c (rstrip s) = false.
Proof.
  induction s as [|a s IH]; intros H; [reflexivity|].
  simpl in H. apply orb_false_iff in H as [Ha Hs].
  simpl. specialize (IH Hs).
  destruct (rstrip s) as [|x r].
  - destruct (is_space a); [reflexivity|]. simpl. now rewrite Ha.
  - simpl has_char at 1. rewrite Ha. exact IH.
Qed.

(** X3: every dollar sign and every asterisk of the first line is
    removed, wherever it stands: the text given to [float] holds
    neither. *)
Theorem price_text_no_marks (price : string) :
  has_char "$" (price_text price) = false /\
  has_char "*" (price_text price) = false.
Proof.
  unfold price_text, strip. split.
  - apply has_char_rstrip, has_char_lstrip, has_char_replace_other,
      has_char_replace_same.
  - apply has_char_rstrip, has_char_lstrip, has_char_replace_same.
Qed.

(** X4: only the first line of a price cell counts: the text after the
    first line feed has no effect on the price, nor on whether the
    conversion raises. *)
Theorem convert_price_first_line (a b : string) (divisor : Z) :
  has_char (ascii_of_nat 10) a = false ->
  _convert_price (a ++ newline ++ b) divisor = _convert_price a divisor.
Proof.
  intros Ha. unfold _convert_price, price_text, split.
  change (a ++ newline ++ b) with (a ++ String (ascii_of_nat 10) b).
  change (String "010" "") with (String (ascii_of_nat 10) "").
  rewrite split_from_piece by exact Ha.
  rewrite (split_from_last (ascii_of_nat 10) a "") by exact Ha.
  reflexivity.
Qed.

(** ** Table extraction: the column map *)

Lemma inner_header_fold (desired : list (string * string))
    (n col : string) (i : nat) (cm : dict nat) :
  dict_get n
    (fold_left
       (fun cm0 (d : string * string) =>
          let (col_desc, litellm_name) := d in
          if contains col_desc col then dict_set litellm_name i cm0 else cm0)
       desired cm)
  = if header_matches desired n col then Some i else dict_get n cm.
Proof.
  revert cm. induction desired as [|[desc out] desired IH]; intros cm.
  - reflexivity.
  - simpl fold_left. rewrite IH. unfold header_matches. simpl existsb.
    fold (header_matches desired n col).
    destruct (header_matches desired n col); [now rewrite orb_true_r|].
    rewrite orb_false_r.
    destruct (contains desc col); [|now rewrite andb_false_r].
    rewrite andb_true_r.
    destruct (String.eqb_spec out n) as [->|Hne].
    + apply dict_get_set_eq.
    + now apply dict_get_set_neq.
Qed.

Lemma outer_header_fold (desired : list (string * string)) (n : string)
    (cols : list string) (i : nat) (cm : dict nat) :
  dict_get n
    (fst (fold_left
       (fun (st : dict nat * nat) col =>
          let (col_map, i0) := st in
          (fold_left
             (fun cm0 (d : string * string) =>
                let (col_desc, litellm_name) := d in
                if contains col_desc col
                then dict_set litellm_name i0 cm0 else cm0)
             desired col_map,
           S i0))
       cols (cm, i)))
  = last_header_from desired n cols i (dict_get n cm).
Proof.
  revert i cm. induction cols as [|col cols IH]; intros i cm.
  - reflexivity.
  - simpl fold_left. rewrite IH, inner_header_fold. reflexivity.
Qed.

(** The entry of [n] in the column map. *)
Lemma build_col_map_get (cols : list string)
    (desired : list (string * string)) (cm : dict nat) (n : string) :
  dict_get n (build_col_map cols desired cm)
  = last_header_from desired n cols 0 (dict_get n cm).
Proof. unfold build_col_map. apply outer_header_fold. Qed.

Lemma last_header_none (desired : list (string * string)) (n : string)
    (cols : list string) (i : nat) (acc : option nat) :
  none_matches desired n cols = true ->
  last_header_from desired n cols i acc = acc.
Proof.
  revert i acc. induction cols as [|col cols IH]; intros i acc H.
  - reflexivity.
  - simpl in H. apply andb_true_iff in H as [Hc Hr].
    apply negb_true_iff in Hc. simpl. rewrite Hc. now apply IH.
Qed.

Lemma last_header_app (desired : list (string * string)) (n : string)
    (before after : list string) (i : nat) (acc : option nat) :
  last_header_from desired n (before ++ after)%list i acc
  = last_header_from desired n after (i + List.length before)
      (last_header_from desired n before i acc).
Proof.
  revert i acc. induction before as [|col before IH]; intros i acc; simpl.
  - now rewrite Nat.add_0_r.
  - rewrite IH. f_equal. lia.
Qed.

(** X5: the column of an output field is that of the last header holding
    one of its labels: an earlier header that holds one, and an index
    handed in by the caller, are overwritten. *)
Theorem header_last_match_wins (before after : list string) (col : string)
    (desired_col_names : list (string * string)) (col_map_input : dict nat)
    (n : string) :
  header_matches desired_col_names n col = true ->
  none_matches desired_col_names n after = true ->
  dict_get n
    (build_col_map (before ++ col :: after)%list desired_col_names
       col_map_input)
  = Some (List.length before).
Proof.
  intros Hcol Hafter. rewrite build_col_map_get, last_header_app.
  simpl. rewrite Hcol. now apply last_header_none.
Qed.

(** X6: when no header holds a label of the fields [name] and
    [try_now_button] and the caller hands in neither, extraction raises
    ValueError, whatever the rows are. *)
Theorem extract_without_identifier_column (t : table)
    (desired_col_names : list (string * string)) (col_map_input : dict nat) :
  dict_mem "name" col_map_input = false ->
  dict_mem "try_now_button" col_map_input = false ->
  none_matches desired_col_names "name" (_extract_col_names t) = true ->
  none_matches desired_col_names "try_now_button" (_extract_col_names t)
  = true ->
  _extract_table_data t desired_col_names col_map_input = Raise ValueError.
Proof.
  intros Hn Ht Hcn Hct. unfold _extract_table_data. cbv zeta.
  unfold dict_mem in *.
  rewrite !build_col_map_get.
  rewrite (last_header_none _ _ _ _ _ Hcn), (last_header_none _ _ _ _ _ Hct).
  destruct (dict_get "name" col_map_input); [discriminate|].
  destruct (dict_get "try_now_button" col_map_input); [discriminate|].
  reflexivity.
Qed.

(** ** Table extraction: the records *)

Lemma in_keys_mem {V : Type} (k : string) (d : dict V) :
  In k (keys d) -> dict_mem k d = true.
Proof.
  unfold dict_mem. induction d as [|[k' v] d IH]; simpl; [intros []|].
  destruct (String.eqb_spec k k') as [->|Hne]; [reflexivity|].
  intros [E|Hin]; [congruence|now apply IH].
Qed.

Lemma header_matches_in (desired : list (string * string)) (n col : string) :
  header_matches desired n col = true -> In n (map snd desired).
Proof.
  unfold header_matches. induction desired as [|[desc out] desired IH]; simpl.
  - discriminate.
  - intros H. apply orb_true_iff in H as [H|H]; [|right; now apply IH].
    apply andb_true_iff in H as [H _]. apply String.eqb_eq in H. now left.
Qed.

Lemma last_header_source (desired : list (string * string)) (n : string)
    (cols : list string) (i : nat) (acc : option nat) (j : nat) :
  last_header_from desired n cols i acc = Some j ->
  In n (map snd desired) \/ acc = Some j.
Proof.
  revert i acc. induction cols as [|col cols IH]; intros i acc; simpl.
  - now right.
  - intros H. destruct (IH _ _ H) as [Hin|Hacc]; [now left|].
    destruct (header_matches desired n col) eqn:E; [|now right].
    left. now apply (header_matches_in desired n col).
Qed.

Lemma fill_row_fields (items : list (string * nat)) (row_values : list cell)
    (rec rec' : record) (k : string) :
  fill_row items row_values rec = Ok rec' ->
  dict_mem k rec' = true ->
  dict_mem k rec = true \/
  (In k (keys items) /\ k <> "name" /\ k <> "try_now_button").
Proof.
  revert rec. induction items as [|[col_name col_idx] items IH]; intros rec.
  - simpl. intros E. injection E as <-. now left.
  - simpl fill_row.
    destruct (String.eqb_spec col_name "try_now_button") as [Et|Hnt];
      [|destruct (String.eqb_spec col_name "name") as [En|Hnn]];
      cbv beta iota delta [orb].
    + intros E Hk. destruct (IH _ E Hk) as [H|[H1 H2]]; [now left|].
      right. split; [now right|exact H2].
    + intros E Hk. destruct (IH _ E Hk) as [H|[H1 H2]]; [now left|].
      right. split; [now right|exact H2].
    + destruct (index row_values col_idx) as [c|e]; [|discriminate].
      cbv beta iota delta [bind].
      destruct (convert_cell col_name (strip (lower (text c)))) as [v|e];
        [|discriminate].
      intros E Hk. destruct (IH _ E Hk) as [H|[H1 H2]].
      * destruct v as [x|]; [|now left].
        destruct (String.eqb_spec col_name k) as [<-|Hne].
        -- right. split; [now left|now split].
        -- rewrite dict_mem_set_neq in H by exact Hne. now left.
      * right. split; [now right|exact H2].
Qed.

Lemma dict_get_set_inv {V : Type} (k k0 : string) (v r : V) (d : dict V) :
  dict_get k0 (dict_set k v d) = Some r -> r = v \/ dict_get k0 d = Some r.
Proof.
  destruct (String.eqb_spec k k0) as [->|Hne].
  - rewrite dict_get_set_eq. intros E. left. congruence.
  - rewrite dict_get_set_neq by exact Hne. now right.
Qed.

Lemma extract_rows_invariant (P : record -> Prop) (col_map : dict nat)
    (rows : list (list cell)) (model_map model_map' : dict record) :
  (forall row_values rec,
      fill_row col_map row_values [] = Ok rec -> P rec) ->
  extract_rows col_map rows model_map = Ok model_map' ->
  (forall key r, dict_get key model_map = Some r -> P r) ->
  forall key r, dict_get key model_map' = Some r -> P r.
Proof.
  intros Hfill. revert model_map.
  induction rows as [|row_values rows IH]; intros model_map; simpl.
  - intros E. injection E as <-. auto.
  - destruct (row_model_name col_map row_values) as [name|e]; [|discriminate].
    cbv beta iota delta [bind].
    destruct (fill_row col_map row_values []) as [rec|e] eqn:Ef;
      [|discriminate].
    intros E Hm. apply (IH _ E).
    intros key r Hget. apply dict_get_set_inv in Hget as [->|Hget].
    + now apply (Hfill row_values).
    + now apply (Hm key).
Qed.

Lemma extract_rows_wf (col_map : dict nat) (rows : list (list cell))
    (model_map model_map' : dict record) :
  extract_rows col_map rows model_map = Ok model_map' ->
  wf_dict model_map = true -> wf_dict model_map' = true.
Proof.
  revert model_map. induction rows as [|row_values rows IH];
    intros model_map; simpl.
  - intros E. injection E as <-. auto.
  - destruct (row_model_name col_map row_values) as [name|e]; [|discriminate].
    cbv beta iota delta [bind].
    destruct (fill_row col_map row_values []) as [rec|e]; [|discriminate].
    intros E Hwf. apply (IH _ E). now apply wf_dict_set.
Qed.

(** A table is extracted into a dictionary: no model name twice. *)
Lemma extract_table_wf (t : table) (desired : list (string * string))
    (cm : dict nat) (model_map : dict record) :
  _extract_table_data t desired cm = Ok model_map ->
  wf_dict model_map = true.
Proof.
  unfold _extract_table_data. cbv zeta.
  destruct (negb _ && negb _); [discriminate|].
  intros E. now apply (extract_rows_wf _ _ _ _ E).
Qed.

(** X7: every field of an extracted record is an output field named by
    the caller, in [desired_col_names] or in [col_map_input], and is
    never [name] nor [try_now_button]. *)
Theorem extract_fields_are_requested (t : table)
    (desired_col_names : list (string * string)) (col_map_input : dict nat)
    (model_map : dict record) (model_name k : string) (r : record) :
  _extract_table_data t desired_col_names col_map_input = Ok model_map ->
  dict_get model_name model_map = Some r ->
  dict_mem k r = true ->
  k <> "name" /\ k <> "try_now_button" /\
  (In k (map snd desired_col_names) \/ dict_mem k col_map_input = true).
Proof.
  unfold _extract_table_data. cbv zeta.
  set (col_map := build_col_map (_extract_col_names t) desired_col_names
                    col_map_input).
  destruct (negb _ && negb _); [discriminate|].
  intros E Hget Hk.
  assert (HP : forall k0, dict_mem k0 r = true ->
             In k0 (keys col_map) /\ k0 <> "name" /\ k0 <> "try_now_button").
  { apply (extract_rows_invariant
             (fun rec => forall k0, dict_mem k0 rec = true ->
                In k0 (keys col_map) /\ k0 <> "name"
                /\ k0 <> "try_now_button")
             col_map (tl (tr t)) [] model_map) with (key := model_name).
    - intros row_values rec Ef k0 Hk0.
      destruct (fill_row_fields _ _ _ _ k0 Ef Hk0) as [H|H];
        [discriminate|exact H].
    - exact E.
    - intros key r0 H. discriminate.
    - exact Hget. }
  destruct (HP k Hk) as [Hin [Hn Ht]]. split; [exact Hn|]. split; [exact Ht|].
  apply in_keys_mem in Hin. unfold dict_mem in Hin.
  destruct (dict_get k col_map) as [j|] eqn:Ej; [|discriminate].
  subst col_map. rewrite build_col_map_get in Ej.
  destruct (last_header_source _ _ _ _ _ _ Ej) as [H|H]; [now left|].
  right. unfold dict_mem. now rewrite H.
Qed.

(** X8: [scrape_groq_pricing] joins its three tables with [|=]: a model
    listed in several of them keeps the record of the last one (speech
    recognition, else text-to-speech, else language models) as a whole;
    the records of one model are not merged field by field. *)
Theorem pricing_last_table_replaces (chat_models_table tts_models_table
    asr_models_table : table) (chat tts asr : dict record) :
  _extract_table_data chat_models_table chat_pricing_cols
    [("try_now_button", 4)] = Ok chat ->
  _extract_table_data tts_models_table
    [("price", "input_cost_per_character")] [("try_now_button", 3)]
  = Ok tts ->
  _extract_table_data asr_models_table
    [("price", "input_cost_per_second")] [("try_now_button", 3)] = Ok asr ->
  exists out,
    scrape_groq_pricing chat_models_table tts_models_table asr_models_table
    = Ok out /\
    forall model_name,
      dict_get model_name out
      = match dict_get model_name asr with
        | Some r => Some r
        | None =>
            match dict_get model_name tts with
            | Some r => Some r
            | None => dict_get model_name chat
            end
        end.
Proof.
  intros Hc Ht Ha. unfold scrape_groq_pricing.
  rewrite Hc, Ht, Ha. cbv beta iota delta [bind].
  eexists. split; [reflexivity|]. intros model_name.
  rewrite dict_get_union by exact (extract_table_wf _ _ _ _ Ha).
  rewrite dict_get_union by exact (extract_table_wf _ _ _ _ Ht).
  reflexivity.
Qed.

(** ** The insert pass on an identifier that exists *)



Lemma expand_template_bad_escape (a b : string) :
  has_char "\" a = false ->
  expand_template (a ++ "\u" ++ b) = Raise ReError.
Proof.
  induction a as [|c a IH]; intros H.
  - reflexivity.
  - simpl in H. apply orb_false_iff in H as [Hc Ha].
    specialize (IH Ha). simpl in IH. simpl.
    assert (E : Nat.eqb (nat_of_ascii c) 92 = false).
    { destruct (Nat.eqb_spec (nat_of_ascii c) 92) as [E|]; [|reflexivity].
      assert (c = "\"%char) as ->
        by (rewrite <- (ascii_nat_embedding c), E; reflexivity).
      discriminate. }
    rewrite E, IH. reflexivity.
Qed.

(** X11: the replacement goes through the template syntax of [re.sub].
    [json.dumps] writes a character outside printable ASCII as a [\u]
    escape, which that syntax rejects: an update whose block holds such
    an escape, no backslash before it, raises re.error, whatever the
    text is. *)
Theorem update_with_unicode_escape_raises (local_data : dict record)
    (raw id : string) (r : record) (p : list item) (a b : string) :
  dict_mem id local_data = true ->
  block_pattern id = Ok p ->
  has_char "\" id = false ->
  format_block r = a ++ "\u" ++ b ->
  has_char "\" a = false ->
  insert_one local_data raw id r = Raise ReError.
Proof.
  intros Hmem Hp Hid Hblk Ha. unfold insert_one. rewrite Hmem, Hp.
  cbv beta iota delta [bind]. unfold re_sub. rewrite Hblk.
  replace (quote ++ id ++ quote ++ ": " ++ (a ++ "\u" ++ b) ++ ",")
    with ((quote ++ id ++ quote ++ ": " ++ a) ++ "\u" ++ (b ++ ","))
    by (now rewrite !append_assoc).
  rewrite expand_template_bad_escape; [reflexivity|].
  rewrite !has_char_app, Hid, Ha. reflexivity.
Qed.


(** ** The deprecation pass *)

(** X13: the deprecation pass returns the text unchanged when every
    identifier it is given is either unknown locally or has a
    deprecation date already. *)
Theorem deprecation_pass_nothing_to_do
    (deprecation_data local_data : dict record) (raw : string) :
  (forall name date_dict, In (name, date_dict) deprecation_data ->
     match dict_get name local_data with
     | None => True
     | Some local_record => dict_mem "deprecation_date" local_record = true
     end) ->
  _update_deprecated_models_in_raw_json deprecation_data local_data raw
  = Ok raw.
Proof.
  induction deprecation_data as [|[name date_dict] rest IH]; intros H.
  - reflexivity.
  - simpl. unfold deprecate_one.
    pose proof (H name date_dict (or_introl eq_refl)) as Hn.
    destruct (dict_get name local_data) as [local_record|].
    + rewrite Hn. cbv beta iota delta [bind]. apply IH.
      intros n d Hin. apply (H n d). now right.
    + cbv beta iota delta [bind]. apply IH.
      intros n d Hin. apply (H n d). now right.
Qed.


(** ** The aggregator: what every returned entry looks like *)

Lemma classify_mode (model : string) (x r0 : record) :
  classify model x = Some r0 ->
  dict_get "mode" r0 = Some (VStr "chat") \/
  dict_get "mode" r0 = Some (VStr "audio_transcription") \/
  dict_get "mode" r0 = Some (VStr "audio_speech").
Proof.
  unfold classify.
  destruct (dict_mem "input_cost_per_token" x).
  - intros E. injection E as <-. left. apply dict_get_set_eq.
  - destruct (dict_mem "input_cost_per_second" x).
    + intros E. injection E as <-. right. left. apply dict_get_set_eq.
    + destruct (contains "tts" model); [|discriminate]. cbv zeta.
      destruct (negb _); [discriminate|].
      intros E. injection E as <-. right. right. apply dict_get_set_eq.
Qed.

Lemma classify_other_fields (model : string) (x r0 : record) (k : string) :
  classify model x = Some r0 ->
  k <> "mode" -> k <> "output_cost_per_second" ->
  dict_get k r0 = dict_get k x.
Proof.
  unfold classify. intros E Hm Ho.
  destruct (dict_mem "input_cost_per_token" x).
  - injection E as <-. apply dict_get_set_neq. congruence.
  - destruct (dict_mem "input_cost_per_second" x).
    + injection E as <-. rewrite !dict_get_set_neq by congruence. reflexivity.
    + destruct (contains "tts" model); [|discriminate]. cbv zeta in E.
      destruct (negb _); [discriminate|].
      injection E as <-. apply dict_get_set_neq. congruence.
Qed.

Lemma final_record_get (r0 : record) (k : string) :
  dict_get k (final_record r0)
  = if existsb (String.eqb k) schema
    then if String.eqb k "litellm_provider" then Some (VStr "groq")
         else dict_get k r0
    else None.
Proof.
  unfold final_record. rewrite dict_get_project.
  destruct (existsb (String.eqb k) schema); [|reflexivity].
  destruct (String.eqb_spec k "litellm_provider") as [->|Hne].
  - apply dict_get_set_eq.
  - apply dict_get_set_neq. congruence.
Qed.

Lemma keys_project (fields : list string) (x : record) :
  keys (project fields x) = filter (fun k => dict_mem k x) fields.
Proof.
  unfold dict_mem. induction fields as [|f fields IH]; simpl; [reflexivity|].
  destruct (dict_get f x); simpl; now rewrite IH.
Qed.

Section AggregateEntries.

Variables pricing capabilities context_window reasoning_models : dict record.

Local Abbreviation step :=
  (aggregate_model pricing capabilities context_window reasoning_models).
Local Abbreviation merged :=
  (union_record pricing capabilities context_window reasoning_models).

Local Abbreviation entry_of :=
  (is_entry pricing capabilities context_window reasoning_models).

Lemma aggregate_model_entries (total : dict record) (name key : string)
    (r : record) :
  wf_dict total = true ->
  dict_get key (step total name) = Some r ->
  entry_of [name] key r \/ dict_get key total = Some r.
Proof.
  intros Hwf. unfold aggregate_model. cbv zeta.
  destruct (String.eqb_spec ("groq/" ++ name) key) as [<-|Hne].
  - destruct (classify ("groq/" ++ name) (merged name)) as [r0|] eqn:Ec.
    + rewrite dict_get_set_eq. intros E. injection E as <-. left.
      exists name, r0. repeat split; auto. now left.
    + rewrite dict_get_pop_eq by (now apply wf_dict_set). discriminate.
  - destruct (classify ("groq/" ++ name) (merged name)) as [r0|].
    + rewrite !dict_get_set_neq by exact Hne. now right.
    + rewrite dict_get_pop_neq by exact Hne.
      rewrite dict_get_set_neq by exact Hne. now right.
Qed.

Lemma fold_aggregate_entries (all_models : list string)
    (total : dict record) (key : string) (r : record) :
  wf_dict total = true ->
  dict_get key (fold_left step all_models total) = Some r ->
  entry_of all_models key r \/ dict_get key total = Some r.
Proof.
  revert total. induction all_models as [|m l IH]; intros total Hwf.
  - simpl. now right.
  - simpl fold_left. intros H.
    destruct (IH _ (aggregate_model_wf _ _ _ _ total m Hwf) H)
      as [[name [r0 [Hin [Hkey [Hc Hr]]]]]|Hstep].
    + left. exists name, r0. repeat split; auto. now right.
    + destruct (aggregate_model_entries total m key r Hwf Hstep)
        as [[name [r0 [Hin [Hkey [Hc Hr]]]]]|Ht]; [|now right].
      left. exists name, r0. repeat split; auto.
      destruct Hin as [<-|[]]. now left.
Qed.

Lemma scrape_groq_main_entries (all_models : list string) (key : string)
    (r : record) :
  dict_get key
    (scrape_groq_main pricing capabilities context_window reasoning_models
       all_models) = Some r ->
  entry_of all_models key r.
Proof.
  unfold scrape_groq_main. intros H.
  destruct (fold_aggregate_entries all_models [] key r eq_refl H) as [He|Hn];
    [exact He|discriminate].
Qed.

End AggregateEntries.

(** X15: every entry [scrape_groq_main] returns stands for a model of
    the key set, under the key [groq/] followed by its name, and its
    record has [litellm_provider] "groq" and a mode among chat,
    audio_transcription and audio_speech. *)
Theorem scrape_groq_main_entry_shape
    (pricing capabilities context_window reasoning_models : dict record)
    (all_models : list string) (key : string) (r : record) :
  dict_get key
    (scrape_groq_main pricing capabilities context_window reasoning_models
       all_models) = Some r ->
  (exists name, In name all_models /\ key = "groq/" ++ name) /\
  dict_get "litellm_provider" r = Some (VStr "groq") /\
  (dict_get "mode" r = Some (VStr "chat") \/
   dict_get "mode" r = Some (VStr "audio_transcription") \/
   dict_get "mode" r = Some (VStr "audio_speech")).
Proof.
  intros H.
  destruct (scrape_groq_main_entries _ _ _ _ _ _ _ H)
    as [name [r0 [Hin [Hkey [Hc ->]]]]].
  split; [now exists name|].
  rewrite !final_record_get.
  change (existsb (String.eqb "litellm_provider") schema) with true.
  change (existsb (String.eqb "mode") schema) with true.
  change (String.eqb "litellm_provider" "litellm_provider") with true.
  change (String.eqb "mode" "litellm_provider") with false.
  cbv iota. split; [reflexivity|].
  exact (classify_mode _ _ _ Hc).
Qed.

(** X16: the fields of a returned record are the fields of the schema it
    holds, in the order of the schema: a field outside the schema is
    dropped, and the order in which the scrapers met the fields is
    lost. *)
Theorem scrape_groq_main_schema_order
    (pricing capabilities context_window reasoning_models : dict record)
    (all_models : list string) (key : string) (r : record) :
  dict_get key
    (scrape_groq_main pricing capabilities context_window reasoning_models
       all_models) = Some r ->
  keys r = filter (fun k => dict_mem k r) schema.
Proof.
  intros H.
  destruct (scrape_groq_main_entries _ _ _ _ _ _ _ H)
    as [name [r0 [_ [_ [_ ->]]]]].
  unfold final_record at 1. rewrite keys_project.
  apply filter_ext_in. intros k Hk. unfold dict_mem.
  unfold final_record. rewrite dict_get_project.
  assert (E : existsb (String.eqb k) schema = true).
  { apply existsb_exists. exists k. split; [exact Hk|apply String.eqb_refl]. }
  now rewrite E.
Qed.

(** ** The aggregator: which models are kept, and as what *)

(** X17: a model whose union holds neither [input_cost_per_token] nor
    [input_cost_per_second] is returned only when "tts" occurs in its
    prefixed name and the union holds [input_cost_per_character]:
    otherwise no entry stands under its key. *)
Theorem scrape_groq_main_drops_unpriced
    (pricing capabilities context_window reasoning_models : dict record)
    (all_models : list string) (name : string) :
  NoDup all_models -> In name all_models ->
  let merged :=
    union_record pricing capabilities context_window reasoning_models name in
  dict_mem "input_cost_per_token" merged = false ->
  dict_mem "input_cost_per_second" merged = false ->
  contains "tts" ("groq/" ++ name) = false \/
  dict_mem "input_cost_per_character" merged = false ->
  dict_get ("groq/" ++ name)
    (scrape_groq_main pricing capabilities context_window reasoning_models
       all_models) = None.
Proof.
  intros Hnd Hin merged Htok Hsec Hor.
  rewrite (scrape_groq_main_lookup _ _ _ _ all_models name Hnd Hin).
  fold merged. unfold classify. rewrite Htok, Hsec.
  destruct Hor as [Htts|Hchar].
  - now rewrite Htts.
  - destruct (contains "tts" ("groq/" ++ name)); [|reflexivity].
    cbv zeta. rewrite dict_mem_set_neq by discriminate.
    now rewrite Hchar.
Qed.

(** X18: a model whose union holds [input_cost_per_token] is a chat
    model, even when it holds [input_cost_per_second] too; apart from
    [mode] and [litellm_provider], each field of the schema has in its
    record the value, or the absence, it has in the union. *)
Theorem scrape_groq_main_chat_first
    (pricing capabilities context_window reasoning_models : dict record)
    (all_models : list string) (name : string) :
  NoDup all_models -> In name all_models ->
  let merged :=
    union_record pricing capabilities context_window reasoning_models name in
  dict_mem "input_cost_per_token" merged = true ->
  exists r,
    dict_get ("groq/" ++ name)
      (scrape_groq_main pricing capabilities context_window reasoning_models
         all_models) = Some r /\
    dict_get "mode" r = Some (VStr "chat") /\
    forall k, In k schema -> k <> "mode" -> k <> "litellm_provider" ->
      dict_get k r = dict_get k merged.
Proof.
  intros Hnd Hin merged Htok.
  rewrite (scrape_groq_main_lookup _ _ _ _ all_models name Hnd Hin).
  fold merged. unfold classify. rewrite Htok. simpl option_map.
  eexists. split; [reflexivity|]. split.
  - rewrite final_record_get.
    change (existsb (String.eqb "mode") schema) with true.
    change (String.eqb "mode" "litellm_provider") with false.
    cbv iota. apply dict_get_set_eq.
  - intros k Hk Hm Hp. rewrite final_record_get.
    assert (E : existsb (String.eqb k) schema = true).
    { apply existsb_exists. exists k. split; [exact Hk|apply String.eqb_refl]. }
    rewrite E. destruct (String.eqb_spec k "litellm_provider") as [->|_];
      [contradiction|].
    apply dict_get_set_neq. congruence.
Qed.

Lemma reasoning_record (d : dict record) (name : string) (rec : record) :
  dict_get name
    (map (fun kv : string * record =>
            (fst kv, [("supports_reasoning", VBool true)])) d) = Some rec ->
  rec = [("supports_reasoning", VBool true)].
Proof.
  induction d as [|[k v] d IH]; simpl; [discriminate|].
  destruct (String.eqb name k); [congruence|exact IH].
Qed.

(** X19: a model of the reasoning table, when the aggregator keeps it,
    has [supports_reasoning] true, whatever the other scrapers say of
    that field: the reasoning record comes last in the union. *)
Theorem reasoning_flag_reaches_entry (reasoning_models_table : table)
    (pricing capabilities context_window reasoning_models : dict record)
    (all_models : list string) (name : string) (r : record) :
  scrape_groq_reasoning_models reasoning_models_table = Ok reasoning_models ->
  dict_mem name reasoning_models = true ->
  NoDup all_models -> In name all_models ->
  dict_get ("groq/" ++ name)
    (scrape_groq_main pricing capabilities context_window reasoning_models
       all_models) = Some r ->
  dict_get "supports_reasoning" r = Some (VBool true).
Proof.
  unfold scrape_groq_reasoning_models. intros Hs Hmem Hnd Hin.
  destruct (_extract_table_data reasoning_models_table _ _) as [d|e];
    [|discriminate].
  cbv beta iota delta [bind] in Hs. injection Hs as <-.
  assert (Hrec : dict_get_or_empty name
                   (map (fun kv : string * record =>
                           (fst kv, [("supports_reasoning", VBool true)])) d)
                 = [("supports_reasoning", VBool true)]).
  { unfold dict_get_or_empty. unfold dict_mem in Hmem.
    destruct (dict_get name (map _ d)) as [rec|] eqn:Er; [|discriminate].
    now apply reasoning_record in Er. }
  rewrite (scrape_groq_main_lookup _ _ _ _ all_models name Hnd Hin).
  destruct (classify _ _) as [r0|] eqn:Ec; [|discriminate].
  simpl option_map. intros E. injection E as <-.
  rewrite final_record_get.
  change (existsb (String.eqb "supports_reasoning") schema) with true.
  change (String.eqb "supports_reasoning" "litellm_provider") with false.
  cbv iota.
  rewrite (classify_other_fields _ _ _ "supports_reasoning" Ec)
    by discriminate.
  unfold union_record. rewrite Hrec.
  rewrite dict_get_union by reflexivity. reflexivity.
Qed.

(** ** The deprecation scraper *)

Lemma wf_dict_union {V : Type} (a b : dict V) :
  wf_dict a = true -> wf_dict (dict_union a b) = true.
Proof.
  unfold dict_union. revert a. induction b as [|[k v] b IH]; intros a Ha.
  - exact Ha.
  - simpl. apply IH. now apply wf_dict_set.
Qed.

Lemma deprecated_tables_wf (tables : list table) (total total' : dict record) :
  deprecated_tables tables total = Ok total' ->
  wf_dict total = true -> wf_dict total' = true.
Proof.
  revert total. induction tables as [|t tables IH]; intros total; simpl.
  - intros E. injection E as <-. auto.
  - destruct (_extract_table_data t _ _) as [d|e]; [|discriminate].
    cbv beta iota delta [bind]. intros E Hwf.
    apply (IH _ E). now apply wf_dict_union.
Qed.

Lemma prefix_fold_get (total acc : dict record) (k : string) :
  wf_dict total = true ->
  dict_get ("groq/" ++ k)
    (fold_left (fun out kv => dict_set ("groq/" ++ fst kv) (snd kv) out)
       total acc)
  = match dict_get k total with
    | Some v => Some v
    | None => dict_get ("groq/" ++ k) acc
    end.
Proof.
  revert acc. induction total as [|[k' v'] total IH]; intros acc Hwf.
  - reflexivity.
  - simpl in Hwf. apply andb_true_iff in Hwf as [Hk' Hwf].
    simpl fold_left. rewrite IH by exact Hwf. simpl dict_get at 3.
    destruct (String.eqb_spec k k') as [->|Hne].
    + unfold dict_mem in Hk'.
      destruct (dict_get k' total); [discriminate|]. apply dict_get_set_eq.
    + destruct (dict_get k total); [reflexivity|].
      apply dict_get_set_neq. intros E. apply Hne.
      symmetry. now apply groq_prefix_inj.
Qed.

Lemma prefix_fold_keys (total acc : dict record) (key : string) :
  dict_mem key
    (fold_left (fun out kv => dict_set ("groq/" ++ fst kv) (snd kv) out)
       total acc) = true ->
  dict_mem key acc = true \/ exists k, key = "groq/" ++ k.
Proof.
  revert acc. induction total as [|[k' v'] total IH]; intros acc.
  - now left.
  - simpl fold_left. intros H. destruct (IH _ H) as [Hacc|Hex]; [|now right].
    destruct (String.eqb_spec ("groq/" ++ k') key) as [<-|Hne].
    + right. now exists k'.
    + rewrite dict_mem_set_neq in Hacc by exact Hne. now left.
Qed.

(** X20: [scrape_groq_deprecated_models] puts [groq/] in front of every
    model name of its tables, without looking at the name: every key
    returned starts with [groq/], and the record of a table name [k]
    stands under [groq/] followed by [k], also when [k] starts with
    [groq/] itself. *)
Theorem deprecated_models_prefixed (tables : list table)
    (out : dict record) :
  scrape_groq_deprecated_models tables = Ok out ->
  (forall key, dict_mem key out = true -> exists k, key = "groq/" ++ k) /\
  exists total,
    deprecated_tables tables [] = Ok total /\
    forall k, dict_get ("groq/" ++ k) out = dict_get k total.
Proof.
  unfold scrape_groq_deprecated_models.
  destruct (deprecated_tables tables []) as [total|e] eqn:Et; [|discriminate].
  cbv beta iota delta [bind]. intros E. injection E as <-. split.
  - intros key H. unfold prefix_groq in H.
    destruct (prefix_fold_keys total [] key H) as [Hn|Hex];
      [discriminate|exact Hex].
  - exists total. split; [reflexivity|]. intros k. unfold prefix_groq.
    rewrite prefix_fold_get by exact (deprecated_tables_wf _ _ _ Et eq_refl).
    now destruct (dict_get k total).
Qed.

(** ** Fields read from one column *)

Lemma dict_mem_cons_false {V : Type} (k k' : string) (v : V) (d : dict V) :
  dict_mem k ((k', v) :: d) = false -> k' <> k /\ dict_mem k d = false.
Proof.
  unfold dict_mem. simpl.
  destruct (String.eqb_spec k k') as [->|Hne]; [discriminate|].
  intros H. split; [congruence|exact H].
Qed.

Lemma fill_row_other (items : list (string * nat)) (row_values : list cell)
    (rec rec' : record) (k : string) :
  dict_mem k items = false ->
  fill_row items row_values rec = Ok rec' ->
  dict_get k rec' = dict_get k rec.
Proof.
  revert rec. induction items as [|[col_name col_idx] items IH]; intros rec.
  - simpl. intros _ E. now injection E as <-.
  - intros Hk. apply dict_mem_cons_false in Hk as [Hne Hk].
    simpl fill_row.
    destruct (String.eqb col_name "try_now_button" || String.eqb col_name "name").
    + now apply IH.
    + destruct (index row_values col_idx) as [c|e]; [|discriminate].
      cbv beta iota delta [bind].
      destruct (convert_cell col_name (strip (lower (text c)))) as [v|e];
        [|discriminate].
      intros E. rewrite (IH _ Hk E).
      destruct v as [x|]; [|reflexivity]. now apply dict_get_set_neq.
Qed.

(** The field of a mapped column: the converted text of its cell. *)
Lemma fill_row_value (items : list (string * nat)) (row_values : list cell)
    (rec rec' : record) (k : string) (i : nat) :
  wf_dict items = true ->
  dict_get k items = Some i ->
  k <> "name" -> k <> "try_now_button" ->
  fill_row items row_values rec = Ok rec' ->
  exists c v,
    index row_values i = Ok c /\
    convert_cell k (strip (lower (text c))) = Ok v /\
    dict_get k rec' = match v with
                      | Some x => Some x
                      | None => dict_get k rec
                      end.
Proof.
  intros Hwf Hget Hn Ht. revert rec Hwf Hget.
  induction items as [|[col_name col_idx] items IH]; intros rec Hwf Hget.
  - discriminate.
  - simpl in Hwf. apply andb_true_iff in Hwf as [Hfresh Hwf].
    apply negb_true_iff in Hfresh. simpl in Hget. simpl fill_row.
    destruct (String.eqb_spec k col_name) as [<-|Hne].
    + injection Hget as <-.
      destruct (String.eqb_spec k "try_now_button") as [|_]; [contradiction|].
      destruct (String.eqb_spec k "name") as [|_]; [contradiction|].
      cbv beta iota delta [orb].
      destruct (index row_values col_idx) as [c|e]; [|discriminate].
      cbv beta iota delta [bind].
      destruct (convert_cell k (strip (lower (text c)))) as [v|e] eqn:Ev;
        [|discriminate].
      intros E. exists c, v. split; [reflexivity|]. split; [exact Ev|].
      rewrite (fill_row_other _ _ _ _ k Hfresh E).
      destruct v as [x|]; [apply dict_get_set_eq|reflexivity].
    + destruct (String.eqb col_name "try_now_button"
                || String.eqb col_name "name").
      * now apply IH.
      * destruct (index row_values col_idx) as [c|e]; [|discriminate].
        cbv beta iota delta [bind].
        destruct (convert_cell col_name (strip (lower (text c)))) as [v|e];
          [|discriminate].
        intros E. destruct (IH _ Hwf Hget E) as [c' [v' [Hc [Hv Hr]]]].
        exists c', v'. split; [exact Hc|]. split; [exact Hv|].
        rewrite Hr. destruct v' as [x'|]; [reflexivity|].
        destruct v as [x|]; [|reflexivity].
        apply dict_get_set_neq. congruence.
Qed.

Lemma build_col_map_wf (cols : list string)
    (desired : list (string * string)) (cm : dict nat) :
  wf_dict cm = true -> wf_dict (build_col_map cols desired cm) = true.
Proof.
  unfold build_col_map. generalize 0.
  revert cm. induction cols as [|col cols IH]; intros cm i Hwf.
  - exact Hwf.
  - simpl fold_left. apply IH.
    clear IH. revert cm Hwf.
    induction desired as [|[desc out] desired IHd]; intros cm Hwf.
    + exact Hwf.
    + simpl. apply IHd. destruct (contains desc col); [|exact Hwf].
      now apply wf_dict_set.
Qed.

Lemma last_header_ext (desired : list (string * string)) (n1 n2 : string)
    (cols : list string) (i : nat) (acc : option nat) :
  (forall col, header_matches desired n1 col = header_matches desired n2 col) ->
  last_header_from desired n1 cols i acc
  = last_header_from desired n2 cols i acc.
Proof.
  intros H. revert i acc. induction cols as [|col cols IH]; intros i acc.
  - reflexivity.
  - simpl. rewrite (H col). apply IH.
Qed.

(** Two output fields that the same labels feed and that are converted
    alike are equal in every extracted record. *)
Lemma same_column_fields_agree (t : table)
    (desired : list (string * string)) (n1 n2 : string)
    (model_map : dict record) (model_name : string) (r : record) :
  (forall col, header_matches desired n1 col = header_matches desired n2 col) ->
  (forall text_, convert_cell n1 text_ = convert_cell n2 text_) ->
  n1 <> "name" -> n1 <> "try_now_button" ->
  n2 <> "name" -> n2 <> "try_now_button" ->
  _extract_table_data t desired [] = Ok model_map ->
  dict_get model_name model_map = Some r ->
  dict_get n1 r = dict_get n2 r.
Proof.
  intros Hh Hc Hn1 Ht1 Hn2 Ht2. unfold _extract_table_data. cbv zeta.
  set (col_map := build_col_map (_extract_col_names t) desired []).
  destruct (negb _ && negb _); [discriminate|].
  intros E Hget.
  apply (extract_rows_invariant (fun rec => dict_get n1 rec = dict_get n2 rec)
           col_map (tl (tr t)) [] model_map) with (key := model_name);
    [|exact E|discriminate|exact Hget].
  intros row_values rec Ef.
  assert (Hwf : wf_dict col_map = true) by (now apply build_col_map_wf).
  assert (Hsame : dict_get n1 col_map = dict_get n2 col_map).
  { subst col_map. rewrite !build_col_map_get. now apply last_header_ext. }
  destruct (dict_get n1 col_map) as [i|] eqn:E1.
  - symmetry in Hsame.
    destruct (fill_row_value _ _ _ _ n1 i Hwf E1 Hn1 Ht1 Ef)
      as [c1 [v1 [Hi1 [Hv1 Hr1]]]].
    destruct (fill_row_value _ _ _ _ n2 i Hwf Hsame Hn2 Ht2 Ef)
      as [c2 [v2 [Hi2 [Hv2 Hr2]]]].
    rewrite Hi1 in Hi2. injection Hi2 as <-.
    rewrite Hc, Hv2 in Hv1. injection Hv1 as <-.
    rewrite Hr1, Hr2. reflexivity.
  - symmetry in Hsame.
    rewrite (fill_row_other _ _ _ _ n1 ltac:(unfold dict_mem; now rewrite E1) Ef).
    rewrite (fill_row_other _ _ _ _ n2
               ltac:(unfold dict_mem; now rewrite Hsame) Ef).
    reflexivity.
Qed.

(** X21: [supports_tool_choice] and [supports_function_calling] are read
    from the same column: in every record of
    [scrape_groq_capabilities] they are equal, or both absent. *)
Theorem capabilities_flags_agree (capabilities_table : table)
    (capabilities : dict record) (model_name : string) (r : record) :
  scrape_groq_capabilities capabilities_table = Ok capabilities ->
  dict_get model_name capabilities = Some r ->
  dict_get "supports_function_calling" r
  = dict_get "supports_tool_choice" r.
Proof.
  unfold scrape_groq_capabilities. intros E Hget.
  refine (same_column_fields_agree capabilities_table _
            "supports_function_calling" "supports_tool_choice"
            capabilities model_name r _ _ _ _ _ _ E Hget);
    try discriminate.
  - intros col. unfold header_matches. simpl.
    now destruct (contains "tool use support?" col).
  - intros text_. reflexivity.
Qed.

(** ** The context-window scraper *)

Lemma dict_set_same {V : Type} (k : string) (v : V) (d : dict V) :
  dict_get k d = Some v -> dict_set k v d = d.
Proof.
  induction d as [|[k' v'] d IH]; simpl; [discriminate|].
  destruct (String.eqb k k').
  - intros E. now injection E as ->.
  - intros E. now rewrite IH.
Qed.

(** The three limits after [default_token_limits], for a record that
    holds [max_input_tokens]. *)
Lemma default_token_limits_gets (r : record) (max_in : value) :
  dict_get "max_input_tokens" r = Some max_in ->
  let max_out :=
    match dict_get "max_output_tokens" r with
    | Some v => if is_placeholder v then max_in else v
    | None => max_in
    end in
  let max_tok :=
    match dict_get "max_tokens" r with
    | Some v => if is_placeholder v then max_out else v
    | None => max_out
    end in
  dict_get "max_input_tokens" (default_token_limits r) = Some max_in /\
  dict_get "max_output_tokens" (default_token_limits r) = Some max_out /\
  dict_get "max_tokens" (default_token_limits r) = Some max_tok.
Proof.
  intros Hin. unfold default_token_limits. rewrite Hin. cbv zeta.
  destruct (dict_get "max_output_tokens" r) as [o|] eqn:Eo;
    [destruct (is_placeholder o) eqn:Po|];
    rewrite ?dict_get_set_eq, ?Eo;
    rewrite ?(dict_get_set_neq "max_output_tokens" "max_tokens")
      by discriminate;
    (destruct (dict_get "max_tokens" r) as [t|] eqn:Et;
     [destruct (is_placeholder t) eqn:Pt|]);
    repeat split;
    repeat first
      [ rewrite dict_get_set_eq
      | rewrite dict_get_set_neq by discriminate ];
    assumption || reflexivity.
Qed.

(** X24: [default_token_limits] does its work in one go: applied to its
    own result it changes nothing. *)
Theorem default_token_limits_idempotent (r : record) :
  default_token_limits (default_token_limits r) = default_token_limits r.
Proof.
  destruct (dict_get "max_input_tokens" r) as [v|] eqn:Ein.
  - destruct (default_token_limits_gets r v Ein) as [H1 [H2 H3]].
    cbv zeta in H2, H3.
    set (o := match dict_get "max_output_tokens" r with
              | Some x => if is_placeholder x then v else x
              | None => v
              end) in *.
    set (t := match dict_get "max_tokens" r with
              | Some x => if is_placeholder x then o else x
              | None => o
              end) in *.
    assert (Ho : is_placeholder o = true -> o = v).
    { subst o. destruct (dict_get "max_output_tokens" r) as [x|]; auto.
      destruct (is_placeholder x) eqn:Px; auto. congruence. }
    assert (Ht : is_placeholder t = true -> t = o).
    { subst t. destruct (dict_get "max_tokens" r) as [x|]; auto.
      destruct (is_placeholder x) eqn:Px; auto. congruence. }
    remember (default_token_limits r) as r2 eqn:Er2.
    unfold default_token_limits. rewrite H1, H2.
    assert (Hd1 : (if is_placeholder o
                   then dict_set "max_output_tokens" v r2 else r2) = r2).
    { destruct (is_placeholder o) eqn:Po; [|reflexivity].
      apply dict_set_same. rewrite H2. f_equal. now apply Ho. }
    rewrite Hd1. cbv zeta. rewrite H2, H3.
    destruct (is_placeholder t) eqn:Pt; [|reflexivity].
    apply dict_set_same. rewrite H3. f_equal. now apply Ht.
  - unfold default_token_limits. rewrite Ein.
    unfold default_token_limits. now rewrite Ein.
Qed.

Lemma dict_get_map_values {A B : Type} (f : A -> B) (k : string)
    (d : dict A) :
  dict_get k (map (fun kv => (fst kv, f (snd kv))) d)
  = option_map f (dict_get k d).
Proof.
  induction d as [|[k' v] d IH]; simpl; [reflexivity|].
  destruct (String.eqb k k'); [reflexivity|exact IH].
Qed.

Lemma wf_map_values {A B : Type} (f : A -> B) (d : dict A) :
  wf_dict d = true ->
  wf_dict (map (fun kv => (fst kv, f (snd kv))) d) = true.
Proof.
  induction d as [|[k v] d IH]; simpl; [reflexivity|].
  intros H. apply andb_true_iff in H as [Hk Hd].
  rewrite (IH Hd), andb_true_r.
  unfold dict_mem in *. rewrite dict_get_map_values.
  now destruct (dict_get k d).
Qed.

(** What holds of every extracted record after the defaults holds of
    every record the scraper returns. *)
Lemma context_window_invariant (P : record -> Prop) (tables : list table)
    (out out' : dict record) :
  (forall t d model_name r,
      _extract_table_data t context_window_cols [] = Ok d ->
      dict_get model_name d = Some r -> P (default_token_limits r)) ->
  scrape_groq_context_window_from tables out = Ok out' ->
  (forall model_name r, dict_get model_name out = Some r -> P r) ->
  forall model_name r, dict_get model_name out' = Some r -> P r.
Proof.
  intros Hext. revert out. induction tables as [|t tables IH]; intros out.
  - simpl. intros E. injection E as <-. auto.
  - simpl.
    destruct (_extract_table_data t context_window_cols []) as [d|e] eqn:Ed;
      [|discriminate].
    cbv beta iota delta [bind]. intros E Hout. apply (IH _ E).
    intros model_name r.
    rewrite dict_get_union
      by (apply wf_map_values; exact (extract_table_wf _ _ _ _ Ed)).
    rewrite dict_get_map_values.
    destruct (dict_get model_name d) as [r'|] eqn:Er; simpl option_map.
    + intros H. injection H as <-. now apply (Hext t d model_name).
    + apply Hout.
Qed.

(** X22: in what [scrape_groq_context_window] returns, a record that
    holds [max_input_tokens] holds [max_output_tokens] and [max_tokens]
    as well. *)
Theorem context_window_limits_complete (tables : list table)
    (out : dict record) (model_name : string) (r : record) :
  scrape_groq_context_window tables = Ok out ->
  dict_get model_name out = Some r ->
  dict_mem "max_input_tokens" r = true ->
  dict_mem "max_output_tokens" r = true /\ dict_mem "max_tokens" r = true.
Proof.
  unfold scrape_groq_context_window. intros E Hget.
  apply (context_window_invariant
           (fun rec => dict_mem "max_input_tokens" rec = true ->
              dict_mem "max_output_tokens" rec = true
              /\ dict_mem "max_tokens" rec = true)
           tables [] out) with (model_name := model_name);
    [|exact E|discriminate|exact Hget].
  intros t d m r0 _ _.
  destruct (dict_get "max_input_tokens" r0) as [v|] eqn:Ein.
  - destruct (default_token_limits_gets r0 v Ein) as [_ [H2 H3]].
    intros _. unfold dict_mem. now rewrite H2, H3.
  - unfold default_token_limits. rewrite Ein. unfold dict_mem.
    rewrite Ein. discriminate.
Qed.

(** X23: [max_output_tokens] and [max_tokens] are read from the same
    column and defaulted alike: in every record
    [scrape_groq_context_window] returns they are equal, or both
    absent. *)
Theorem context_window_limits_agree (tables : list table)
    (out : dict record) (model_name : string) (r : record) :
  scrape_groq_context_window tables = Ok out ->
  dict_get model_name out = Some r ->
  dict_get "max_tokens" r = dict_get "max_output_tokens" r.
Proof.
  unfold scrape_groq_context_window. intros E Hget.
  apply (context_window_invariant
           (fun rec => dict_get "max_tokens" rec
                       = dict_get "max_output_tokens" rec)
           tables [] out) with (model_name := model_name);
    [|exact E|discriminate|exact Hget].
  intros t d m r0 Ed Hr0.
  assert (Hsame : dict_get "max_tokens" r0 = dict_get "max_output_tokens" r0).
  { refine (same_column_fields_agree t _ "max_tokens" "max_output_tokens"
              d m r0 _ _ _ _ _ _ Ed Hr0); try discriminate.
    - intros col. unfold header_matches. simpl.
      now destruct (contains "completion tokens" col).
    - intros text_. reflexivity. }
  destruct (dict_get "max_input_tokens" r0) as [v|] eqn:Ein.
  - destruct (default_token_limits_gets r0 v Ein) as [_ [H2 H3]].
    cbv zeta in H2, H3. rewrite H2, H3, Hsame.
    destruct (dict_get "max_output_tokens" r0) as [x|]; [|reflexivity].
    destruct (is_placeholder x); reflexivity.
  - unfold default_token_limits. now rewrite Ein.
Qed.

(** ** The model name taken from a link *)

Lemma split_from_nonempty (sep s cur : string) (skip : nat) :
  split_from sep s cur skip <> [].
Proof.
  revert cur skip. induction s as [|c s IH]; intros cur skip; simpl.
  - discriminate.
  - destruct skip; [|apply IH].
    destruct (starts_with sep (String c s)); [discriminate|apply IH].
Qed.

Lemma last_cons_nonempty {A : Type} (x d : A) (l : list A) :
  l <> [] -> last (x :: l) d = last l d.
Proof. destruct l; [congruence|reflexivity]. Qed.

Lemma split_from_absent (sep s cur : string) :
  contains sep s = false -> split_from sep s cur 0 = [cur ++ s].
Proof.
  revert cur. induction s as [|c s IH]; intros cur H.
  - simpl. now rewrite append_nil_r.
  - simpl in H. apply orb_false_iff in H as [Hs Hc].
    simpl split_from. rewrite Hs, (IH _ Hc).
    now rewrite append_assoc.
Qed.

Lemma contains_needs_first (c : ascii) (sep s : string) :
  has_char c s = false -> contains (String c sep) s = false.
Proof.
  induction s as [|a s IH]; intros H; [reflexivity|].
  simpl in H. apply orb_false_iff in H as [Ha Hs].
  simpl. rewrite Ascii.eqb_sym, Ha. simpl. now apply IH.
Qed.

(** An occurrence of [?model=] that starts in [base] ends in it: the
    separator does not overlap itself. *)
Lemma model_sep_inside (c : ascii) (base rest : string) :
  starts_with "?model=" (String c base ++ "?model=" ++ rest) = true ->
  6 <= String.length base.
Proof.
  destruct base as [|c1 [|c2 [|c3 [|c4 [|c5 [|c6 base]]]]]];
    simpl; intros H; try lia;
    repeat match type of H with
           | context [Ascii.eqb ?a ?b] => destruct (Ascii.eqb a b)
           end; simpl in H; discriminate.
Qed.

Lemma split_from_zero (sep : string) (c : ascii) (s cur : string) :
  split_from sep (String c s) cur 0
  = if starts_with sep (String c s)
    then cur :: split_from sep s "" (String.length sep - 1)
    else split_from sep s (cur ++ String c "") 0.
Proof. reflexivity. Qed.

Lemma split_link_last (base id cur : string) (skip : nat) :
  has_char "?" id = false ->
  skip <= String.length base ->
  last (split_from "?model=" (base ++ "?model=" ++ id) cur skip) "" = id.
Proof.
  intros Hid. revert cur skip.
  induction base as [|c base IH]; intros cur skip Hskip.
  - assert (skip = 0) as -> by (simpl in Hskip; lia).
    change ("" ++ "?model=" ++ id) with (String "?" ("model=" ++ id)).
    simpl split_from.
    rewrite (split_from_absent "?model=" id "")
      by (now apply contains_needs_first).
    reflexivity.
  - change (String c base ++ "?model=" ++ id)
      with (String c (base ++ "?model=" ++ id)).
    simpl in Hskip. destruct skip as [|k].
    + rewrite split_from_zero.
      destruct (starts_with "?model=" (String c (base ++ "?model=" ++ id)))
        eqn:Es.
      * rewrite last_cons_nonempty by apply split_from_nonempty.
        apply IH. change (String.length "?model=" - 1) with 6.
        now apply (model_sep_inside c base id).
      * apply IH. lia.
    + change (split_from "?model=" (String c (base ++ "?model=" ++ id))
                cur (S k))
        with (split_from "?model=" (base ++ "?model=" ++ id) cur k).
      apply IH. lia.
Qed.

(** X25: with a try-now column, the model name of a row is the text
    after the last [?model=] of the link, where that text holds no
    question mark, whatever comes before it; a link without [?model=]
    is taken whole.  The name is neither lower-cased nor trimmed. *)
Theorem link_model_name (col_map : dict nat) (row_values : list cell)
    (i : nat) (c : cell) (link : string) :
  dict_get "try_now_button" col_map = Some i ->
  index row_values i = Ok c ->
  href c = Some link ->
  (contains "?model=" link = false ->
   row_model_name col_map row_values = Ok link) /\
  (forall base id, link = base ++ "?model=" ++ id ->
     has_char "?" id = false ->
     row_model_name col_map row_values = Ok id).
Proof.
  intros Hcol Hidx Hhref. unfold row_model_name.
  rewrite Hcol, Hidx. cbv beta iota delta [bind]. rewrite Hhref.
  unfold split. split.
  - intros Hno. now rewrite split_from_absent.
  - intros base id -> Hid. f_equal. apply split_link_last; [exact Hid|lia].
Qed.

(** ** The block of a record *)

Lemma no_linebreak_app (a b : string) :
  no_linebreak (a ++ b) = no_linebreak a && no_linebreak b.
Proof.
  induction a as [|c a IH]; simpl; [reflexivity|].
  now rewrite IH, andb_assoc.
Qed.

Lemma no_linebreak_both (a b : string) :
  no_linebreak a = true -> no_linebreak b = true ->
  no_linebreak (a ++ b) = true.
Proof. intros Ha Hb. now rewrite no_linebreak_app, Ha, Hb. Qed.

Lemma json_escape_char_no_linebreak (c : ascii) :
  no_linebreak (json_escape_char c) = true.
Proof.
  destruct c as [[|] [|] [|] [|] [|] [|] [|] [|]]; reflexivity.
Qed.

Lemma json_string_no_linebreak (s : string) :
  no_linebreak (json_string s) = true.
Proof.
  assert (H : no_linebreak (json_escape s) = true).
  { induction s as [|c s IH]; [reflexivity|]. simpl json_escape.
    apply no_linebreak_both; [apply json_escape_char_no_linebreak|exact IH]. }
  unfold json_string.
  apply no_linebreak_both; [reflexivity|].
  apply no_linebreak_both; [exact H|reflexivity].
Qed.

Lemma uint_no_linebreak (d : Decimal.uint) :
  no_linebreak (NilEmpty.string_of_uint d) = true.
Proof. induction d; simpl; auto. Qed.

Lemma json_int_no_linebreak (n : Z) : no_linebreak (json_int n) = true.
Proof.
  unfold json_int, NilZero.string_of_int.
  destruct (Z.to_int n) as [d|d]; unfold NilZero.string_of_uint;
    destruct d; simpl; auto using uint_no_linebreak.
Qed.

Section BlockLines.

Hypothesis float_repr_one_line :
  forall x, no_linebreak (float_repr x) = true.

Lemma json_value_no_linebreak (v : value) :
  no_linebreak (json_value v) = true.
Proof using float_repr_one_line.
  destruct v as [x|n|[|]|s]; simpl json_value.
  - apply float_repr_one_line.
  - apply json_int_no_linebreak.
  - reflexivity.
  - reflexivity.
  - apply json_string_no_linebreak.
Qed.

Lemma member_lines_no_linebreak (ind : string) (r : record) :
  no_linebreak ind = true ->
  Forall (fun l => no_linebreak l = true) (member_lines ind r).
Proof using float_repr_one_line.
  intros Hind. induction r as [|[k v] r IH]; [constructor|].
  pose proof (json_string_no_linebreak k) as Hk.
  pose proof (json_value_no_linebreak v) as Hv.
  simpl member_lines. destruct r as [|kv r].
  - constructor; [|constructor].
    apply no_linebreak_both; [exact Hind|].
    apply no_linebreak_both; [exact Hk|]. exact Hv.
  - constructor; [|exact IH].
    apply no_linebreak_both; [exact Hind|].
    apply no_linebreak_both; [exact Hk|].
    change (no_linebreak (json_value v ++ ",") = true).
    apply no_linebreak_both; [exact Hv|reflexivity].
Qed.

End BlockLines.

Lemma splitlines_from_line (l rest cur : string) :
  no_linebreak l = true ->
  splitlines_from (l ++ newline ++ rest) cur
  = (cur ++ l) :: splitlines_from rest "".
Proof.
  revert cur. induction l as [|c l IH]; intros cur H.
  - rewrite append_nil_r. destruct rest; reflexivity.
  - simpl in H. apply andb_true_iff in H as [Hc Hl].
    apply negb_true_iff in Hc.
    change (String c l ++ newline ++ rest)
      with (String c (l ++ newline ++ rest)).
    simpl splitlines_from. rewrite Hc, (IH _ Hl).
    now rewrite append_assoc.
Qed.

Lemma splitlines_from_last (l cur : string) :
  no_linebreak l = true -> l <> "" ->
  splitlines_from l cur = [cur ++ l].
Proof.
  revert cur. induction l as [|c l IH]; intros cur H Hne; [congruence|].
  simpl in H. apply andb_true_iff in H as [Hc Hl].
  apply negb_true_iff in Hc. simpl splitlines_from. rewrite Hc.
  destruct l as [|c' l].
  - simpl. destruct (cur ++ String c "") eqn:E; [|reflexivity].
    destruct cur; discriminate.
  - rewrite IH by (exact Hl || discriminate). now rewrite append_assoc.
Qed.

Lemma json_members_one (ind k : string) (v : value) :
  json_members ind [(k, v)] = ind ++ json_string k ++ ": " ++ json_value v.
Proof. reflexivity. Qed.

Lemma json_members_more (ind k : string) (v : value)
    (kv : string * value) (r : record) :
  json_members ind ((k, v) :: kv :: r)
  = ind ++ json_string k ++ ": " ++ json_value v ++ "," ++ newline
    ++ json_members ind (kv :: r).
Proof. reflexivity. Qed.

Lemma member_lines_one (ind k : string) (v : value) :
  member_lines ind [(k, v)]
  = [ind ++ json_string k ++ ": " ++ json_value v].
Proof. reflexivity. Qed.

Lemma member_lines_more (ind k : string) (v : value)
    (kv : string * value) (r : record) :
  member_lines ind ((k, v) :: kv :: r)
  = (ind ++ json_string k ++ ": " ++ json_value v ++ ",")
    :: member_lines ind (kv :: r).
Proof. reflexivity. Qed.

(** The members, line by line. *)
Lemma splitlines_members (ind : string) (r : record) (tail : string) :
  Forall (fun l => no_linebreak l = true) (member_lines ind r) ->
  r <> [] ->
  splitlines_from (json_members ind r ++ newline ++ tail) ""
  = (member_lines ind r ++ splitlines_from tail "")%list.
Proof.
  induction r as [|[k v] r IH]; intros Hall Hne; [congruence|].
  destruct r as [|kv r].
  - rewrite json_members_one. rewrite member_lines_one in Hall |- *.
    inversion Hall as [|? ? Hl _]; subst.
    now rewrite splitlines_from_line.
  - rewrite json_members_more. rewrite member_lines_more in Hall |- *.
    inversion Hall as [|? ? Hl Hrest]; subst.
    replace ((ind ++ json_string k ++ ": " ++ json_value v ++ ","
              ++ newline ++ json_members ind (kv :: r)) ++ newline ++ tail)
      with ((ind ++ json_string k ++ ": " ++ json_value v ++ ",")
            ++ newline ++ (json_members ind (kv :: r) ++ newline ++ tail))
      by (now rewrite !append_assoc).
    rewrite splitlines_from_line by exact Hl.
    rewrite IH by (exact Hrest || discriminate). reflexivity.
Qed.

Lemma indent_lines_cons (line : string) (lines : list string) (i n : nat) :
  indent_lines (line :: lines) i n
  = (if negb (Nat.eqb i 0) && negb (Nat.eqb (S i) n)
     then "    " ++ line ++ newline
     else if Nat.eqb i 0 then line ++ newline
     else "    " ++ line)
    ++ indent_lines lines (S i) n.
Proof. reflexivity. Qed.

Lemma indent_lines_tail (lines : list string) (last_line : string)
    (i n : nat) :
  0 < i -> n = i + List.length lines + 1 ->
  indent_lines (lines ++ [last_line])%list i n
  = fold_right (fun l acc => "    " ++ l ++ newline ++ acc)
      ("    " ++ last_line) lines.
Proof.
  revert i. induction lines as [|l lines IH]; intros i Hi Hn.
  - change (([] ++ [last_line])%list) with [last_line].
    rewrite indent_lines_cons.
    assert (E0 : Nat.eqb i 0 = false) by (apply Nat.eqb_neq; lia).
    assert (E1 : Nat.eqb (S i) n = true)
      by (apply Nat.eqb_eq; simpl in Hn; lia).
    rewrite E0, E1. cbv beta iota delta [negb andb].
    change (indent_lines [] (S i) n) with "".
    now rewrite append_nil_r.
  - change (((l :: lines) ++ [last_line])%list)
      with (l :: (lines ++ [last_line])%list).
    rewrite indent_lines_cons.
    assert (E0 : Nat.eqb i 0 = false) by (apply Nat.eqb_neq; lia).
    assert (E1 : Nat.eqb (S i) n = false)
      by (apply Nat.eqb_neq; simpl in Hn; lia).
    rewrite E0, E1. cbv beta iota delta [negb andb].
    rewrite IH by (simpl in Hn; lia).
    change (fold_right (fun l0 acc => "    " ++ l0 ++ newline ++ acc)
              ("    " ++ last_line) (l :: lines))
      with ("    " ++ l ++ newline
            ++ fold_right (fun l0 acc => "    " ++ l0 ++ newline ++ acc)
                 ("    " ++ last_line) lines).
    now rewrite !append_assoc.
Qed.

Lemma members_indented (ind : string) (r : record) (closing : string) :
  r <> [] ->
  fold_right (fun l acc => "    " ++ l ++ newline ++ acc) closing
    (member_lines ind r)
  = json_members ("    " ++ ind) r ++ newline ++ closing.
Proof.
  induction r as [|[k v] r IH]; intros Hne; [congruence|].
  destruct r as [|kv r].
  - rewrite member_lines_one, json_members_one.
    cbv beta iota delta [fold_right]. now rewrite !append_assoc.
  - rewrite member_lines_more, json_members_more.
    change (fold_right (fun l acc => "    " ++ l ++ newline ++ acc) closing
              ((ind ++ json_string k ++ ": " ++ json_value v ++ ",")
               :: member_lines ind (kv :: r)))
      with ("    " ++ (ind ++ json_string k ++ ": " ++ json_value v ++ ",")
            ++ newline
            ++ fold_right (fun l acc => "    " ++ l ++ newline ++ acc)
                 closing (member_lines ind (kv :: r))).
    rewrite IH by discriminate. now rewrite !append_assoc.
Qed.

(** X26: the loop of lines 176-182 lays a record out as
    [json.dumps(..., indent=4)] does one level down: the opening brace
    as it is, every field line and the closing brace four spaces
    further in.  (The texts of the floats are taken to hold no line
    boundary.)  An empty record is the exception: its block is [{}]
    followed by a line feed. *)
Theorem format_block_nested (r : record) :
  (forall x, no_linebreak (float_repr x) = true) ->
  format_block r
  = match r with
    | [] => "{}" ++ newline
    | _ => json_object "    " r
    end.
Proof.
  intros Hfloat. destruct r as [|kv r]; [reflexivity|].
  set (r0 := kv :: r).
  assert (Hne : r0 <> []) by discriminate.
  assert (Hall : Forall (fun l => no_linebreak l = true)
                   (member_lines "    " r0))
    by (now apply member_lines_no_linebreak).
  unfold format_block, json_dumps, json_object, splitlines.
  assert (Hlines :
    splitlines_from
      (match r0 with
       | [] => "{}"
       | _ => "{" ++ newline ++ json_members ("" ++ "    ") r0 ++ newline
              ++ "" ++ "}"
       end) ""
    = ("{" :: member_lines "    " r0 ++ ["}"])%list).
  { subst r0. cbv iota.
    rewrite (splitlines_from_line "{" _ "" eq_refl).
    change ("" ++ "{") with "{". f_equal.
    change ("" ++ "    ") with "    ". change ("" ++ "}") with "}".
    now rewrite splitlines_members. }
  rewrite Hlines.
  change (indent_lines ("{" :: member_lines "    " r0 ++ ["}"]) 0
            (List.length ("{" :: member_lines "    " r0 ++ ["}"])%list))
    with (("{" ++ newline)
          ++ indent_lines (member_lines "    " r0 ++ ["}"]) 1
               (List.length ("{" :: member_lines "    " r0 ++ ["}"])%list)).
  rewrite indent_lines_tail
    by (simpl; rewrite ?length_app; simpl; lia).
  rewrite members_indented by exact Hne.
  subst r0. cbv iota. reflexivity.
Qed.

End Groq.

(** * Closed instances *)

Lemma convert_date_mdy_witness :
  _convert_date "01/15/24" = Ok "2024-01-15".
Proof. exact (convert_date_mdy "01" "15" "24" eq_refl eq_refl eq_refl). Defined.

Lemma supports_cell_substring_accepted_witness :
  convert_cell unit no_float_of_str no_float_div no_format_8f
    "supports_tool_choice" "unknown"
  = Ok (Some (VBool unit false)).
Proof.
  exact (supports_cell_substring_accepted unit no_float_of_str no_float_div
           no_format_8f "supports_tool_choice" "unknown" eq_refl eq_refl
           (or_intror eq_refl)).
Defined.



Lemma default_token_limits_spec_witness :
  dict_get "max_tokens"
    (default_token_limits unit
       [("max_input_tokens", VInt unit 8192%Z);
        ("max_output_tokens", VStr unit "-")])
  = Some (VInt unit 8192%Z).
Proof.
  exact (proj1 (proj2 (default_token_limits_spec unit
           [("max_input_tokens", VInt unit 8192%Z);
            ("max_output_tokens", VStr unit "-")]))).
Defined.

Lemma two_models_key_union :
  is_key_union unit (two_pricing unit tt) (two_capabilities unit)
    (two_context_window unit) (two_reasoning unit) two_models.
Proof.
  split.
  - repeat constructor; simpl; intuition discriminate.
  - intros k. simpl. tauto.
Defined.

Lemma aggregate_union_order_witness :
  dict_get "max_tokens"
    (union_record unit (two_pricing unit tt) (two_capabilities unit)
       (two_context_window unit) (two_reasoning unit) "llama-x")
  = Some (VInt unit 3%Z).
Proof.
  exact (proj1 (aggregate_union_order unit tt (two_pricing unit tt)
           (two_capabilities unit) (two_context_window unit)
           (two_reasoning unit) two_models "llama-x" "max_tokens"
           eq_refl eq_refl eq_refl two_models_key_union
           (or_intror (or_introl eq_refl)))).
Defined.

Lemma audio_transcription_output_cost_witness :
  exists r,
    dict_get "groq/whisper-x"
      (scrape_groq_main unit tt (two_pricing unit tt) (two_capabilities unit)
         (two_context_window unit) (two_reasoning unit) two_models)
    = Some r /\
    dict_get "mode" r = Some (VStr unit "audio_transcription") /\
    dict_get "output_cost_per_second" r = Some (VFloat unit tt).
Proof.
  exact (audio_transcription_output_cost unit tt (two_pricing unit tt)
           (two_capabilities unit) (two_context_window unit)
           (two_reasoning unit) two_models "whisper-x"
           two_models_key_union (or_introl eq_refl) eq_refl eq_refl).
Defined.


Lemma convert_date_too_few_parts_witness :
  _convert_date "01" = Raise IndexError /\
  _convert_date "01/2024" = Raise IndexError.
Proof. exact (convert_date_too_few_parts "01" "2024" eq_refl eq_refl). Defined.

Lemma convert_date_extra_parts_witness :
  _convert_date "01/15/24/2024" = Ok "2024-01-15".
Proof.
  exact (convert_date_extra_parts "01" "15" "24" "2024"
           eq_refl eq_refl eq_refl).
Defined.

Lemma convert_price_first_line_witness :
  _convert_price unit no_float_of_str no_float_div no_format_8f
    ("$0.59*" ++ newline ++ "per 1m tokens") 1000000
  = _convert_price unit no_float_of_str no_float_div no_format_8f
      "$0.59*" 1000000.
Proof.
  exact (convert_price_first_line unit no_float_of_str no_float_div
           no_format_8f "$0.59*" "per 1m tokens" 1000000%Z eq_refl).
Defined.

(** ** Instances of the further properties *)

Lemma header_last_match_wins_witness :
  dict_get "input_cost_per_second"
    (build_col_map ["model"; "price (old)"; "price per hour"; "notes"]
       [("price", "input_cost_per_second")]
       [("input_cost_per_second", 7)])
  = Some 2.
Proof.
  exact (header_last_match_wins ["model"; "price (old)"] ["notes"]
           "price per hour" [("price", "input_cost_per_second")]
           [("input_cost_per_second", 7)] "input_cost_per_second"
           eq_refl eq_refl).
Defined.

Lemma extract_without_identifier_column_witness :
  _extract_table_data unit no_float_of_str no_float_div no_format_8f
    no_id_table [("price", "input_cost_per_second")] []
  = Raise ValueError.
Proof.
  exact (extract_without_identifier_column unit no_float_of_str no_float_div
           no_format_8f no_id_table [("price", "input_cost_per_second")] []
           eq_refl eq_refl eq_refl eq_refl).
Defined.

Lemma extract_fields_are_requested_witness :
  "supports_tool_choice" <> "name" /\
  "supports_tool_choice" <> "try_now_button" /\
  (In "supports_tool_choice" (map snd capabilities_cols) \/
   dict_mem "supports_tool_choice" (@nil (string * nat)) = true).
Proof.
  exact (extract_fields_are_requested unit no_float_of_str no_float_div
           no_format_8f footnote_table capabilities_cols [] _ "llama-x"
           "supports_tool_choice" _ eq_refl eq_refl eq_refl).
Defined.

Lemma pricing_last_table_replaces_witness :
  exists out,
    scrape_groq_pricing unit no_float_of_str no_float_div no_format_8f
      chat_table tts_table asr_table = Ok out /\
    dict_get "llama-x" out = Some [("input_cost_per_second", VFloat unit tt)].
Proof.
  destruct (pricing_last_table_replaces unit no_float_of_str no_float_div
              no_format_8f chat_table tts_table asr_table _ _ _
              eq_refl eq_refl eq_refl) as [out [E H]].
  exists out. split; [exact E|]. rewrite H. reflexivity.
Defined.



Lemma update_with_unicode_escape_raises_witness :
  insert_one unit no_float_repr (abc_local unit)
    (registry_text unit no_float_repr (abc_local unit))
    "groq/a-model" (accent_record unit)
  = Raise ReError.
Proof.
  pose (blk := format_block unit no_float_repr (accent_record unit)).
  exact (update_with_unicode_escape_raises unit no_float_repr
           (abc_local unit)
           (registry_text unit no_float_repr (abc_local unit))
           "groq/a-model" (accent_record unit) _
           (substring 0 22 blk) (substring 24 11 blk)
           eq_refl eq_refl eq_refl eq_refl eq_refl).
Defined.

Lemma deprecation_pass_nothing_to_do_witness :
  _update_deprecated_models_in_raw_json unit no_float_repr
    [("groq/unknown", [("deprecation_date", VStr unit "2025-06-01")]);
     ("groq/llama-3x1", [("deprecation_date", VStr unit "2025-06-01")])]
    (dotted_local unit)
    (registry_text unit no_float_repr (dotted_local unit))
  = Ok (registry_text unit no_float_repr (dotted_local unit)).
Proof.
  apply (deprecation_pass_nothing_to_do unit no_float_repr).
  intros name date_dict [E|[E|[]]]; injection E as <- <-; reflexivity.
Defined.


Lemma scrape_groq_main_entry_shape_witness :
  exists r,
    dict_get "groq/llama-x"
      (scrape_groq_main unit tt (two_pricing unit tt) (two_capabilities unit)
         (two_context_window unit) (two_reasoning unit) two_models) = Some r /\
    dict_get "litellm_provider" r = Some (VStr unit "groq").
Proof.
  eexists. split; [reflexivity|].
  exact (proj1 (proj2 (scrape_groq_main_entry_shape unit tt
           (two_pricing unit tt) (two_capabilities unit)
           (two_context_window unit) (two_reasoning unit) two_models
           "groq/llama-x" _ eq_refl))).
Defined.

Lemma scrape_groq_main_schema_order_witness :
  exists r,
    dict_get "groq/llama-x"
      (scrape_groq_main unit tt (two_pricing unit tt) (two_capabilities unit)
         (two_context_window unit) (two_reasoning unit) two_models) = Some r /\
    keys r = filter (fun k => dict_mem k r) schema.
Proof.
  eexists. split; [reflexivity|].
  exact (scrape_groq_main_schema_order unit tt
           (two_pricing unit tt) (two_capabilities unit)
           (two_context_window unit) (two_reasoning unit) two_models
           "groq/llama-x" _ eq_refl).
Defined.

Lemma two_models_nodup : NoDup two_models.
Proof. repeat constructor; simpl; intuition discriminate. Defined.

(** Without the pricing page, the language model is dropped. *)
Lemma scrape_groq_main_drops_unpriced_witness :
  dict_get "groq/llama-x"
    (scrape_groq_main unit tt [] (two_capabilities unit)
       (two_context_window unit) (two_reasoning unit) two_models) = None.
Proof.
  exact (scrape_groq_main_drops_unpriced unit tt [] (two_capabilities unit)
           (two_context_window unit) (two_reasoning unit) two_models
           "llama-x" two_models_nodup (or_intror (or_introl eq_refl))
           eq_refl eq_refl (or_introl eq_refl)).
Defined.

Lemma scrape_groq_main_chat_first_witness :
  exists r,
    dict_get "groq/llama-x"
      (scrape_groq_main unit tt (two_pricing unit tt) (two_capabilities unit)
         (two_context_window unit) (two_reasoning unit) two_models) = Some r /\
    dict_get "mode" r = Some (VStr unit "chat").
Proof.
  destruct (scrape_groq_main_chat_first unit tt (two_pricing unit tt)
              (two_capabilities unit) (two_context_window unit)
              (two_reasoning unit) two_models "llama-x" two_models_nodup
              (or_intror (or_introl eq_refl)) eq_refl) as [r [E [Hm _]]].
  exists r. split; [exact E|exact Hm].
Defined.

Lemma reasoning_flag_reaches_entry_witness :
  exists reasoning_models r,
    scrape_groq_reasoning_models unit no_float_of_str no_float_div
      no_format_8f reasoning_table = Ok reasoning_models /\
    dict_get "groq/llama-x"
      (scrape_groq_main unit tt (two_pricing unit tt) (two_capabilities unit)
         (two_context_window unit) reasoning_models two_models) = Some r /\
    dict_get "supports_reasoning" r = Some (VBool unit true).
Proof.
  eexists. eexists. split; [reflexivity|]. split; [reflexivity|].
  exact (reasoning_flag_reaches_entry unit no_float_of_str no_float_div
           no_format_8f tt reasoning_table (two_pricing unit tt)
           (two_capabilities unit) (two_context_window unit) _ two_models
           "llama-x" _ eq_refl eq_refl two_models_nodup
           (or_intror (or_introl eq_refl)) eq_refl).
Defined.

(** A table name that starts with [groq/] gets the prefix once more. *)
Lemma deprecated_models_prefixed_witness :
  exists out,
    scrape_groq_deprecated_models unit no_float_of_str no_float_div
      no_format_8f [deprecation_table] = Ok out /\
    dict_get "groq/groq/odd-model" out
    = Some [("deprecation_date", VStr unit "2025-03-31")] /\
    forall key, dict_mem key out = true -> exists k, key = "groq/" ++ k.
Proof.
  eexists. split; [reflexivity|]. split; [reflexivity|].
  exact (proj1 (deprecated_models_prefixed unit no_float_of_str no_float_div
                  no_format_8f [deprecation_table] _ eq_refl)).
Defined.

Lemma capabilities_flags_agree_witness :
  exists capabilities r,
    scrape_groq_capabilities unit no_float_of_str no_float_div no_format_8f
      footnote_table = Ok capabilities /\
    dict_get "llama-x" capabilities = Some r /\
    dict_get "supports_function_calling" r
    = dict_get "supports_tool_choice" r.
Proof.
  eexists. eexists. split; [reflexivity|]. split; [reflexivity|].
  exact (capabilities_flags_agree unit no_float_of_str no_float_div
           no_format_8f footnote_table _ "llama-x" _ eq_refl eq_refl).
Defined.

Lemma context_window_limits_complete_witness :
  exists out r,
    scrape_groq_context_window unit no_float_of_str no_float_div no_format_8f
      [limits_table] = Ok out /\
    dict_get "llama-x" out = Some r /\
    dict_mem "max_output_tokens" r = true /\ dict_mem "max_tokens" r = true.
Proof.
  eexists. eexists. split; [reflexivity|]. split; [reflexivity|].
  exact (context_window_limits_complete unit no_float_of_str no_float_div
           no_format_8f [limits_table] _ "llama-x" _ eq_refl eq_refl eq_refl).
Defined.

Lemma context_window_limits_agree_witness :
  exists out r,
    scrape_groq_context_window unit no_float_of_str no_float_div no_format_8f
      [limits_table] = Ok out /\
    dict_get "gemma-x" out = Some r /\
    dict_get "max_tokens" r = dict_get "max_output_tokens" r.
Proof.
  eexists. eexists. split; [reflexivity|]. split; [reflexivity|].
  exact (context_window_limits_agree unit no_float_of_str no_float_div
           no_format_8f [limits_table] _ "gemma-x" _ eq_refl eq_refl).
Defined.

Lemma link_model_name_witness :
  row_model_name [("try_now_button", 1)]
    [plain "Llama X";
     linked "Try Now" "https://console.groq.com/playground?model=Llama-X"]
  = Ok "Llama-X".
Proof.
  exact (proj2 (link_model_name [("try_now_button", 1)]
                  [plain "Llama X";
                   linked "Try Now"
                     "https://console.groq.com/playground?model=Llama-X"]
                  1 _ _ eq_refl eq_refl eq_refl)
           "https://console.groq.com/playground" "Llama-X" eq_refl eq_refl).
Defined.

Lemma format_block_nested_witness :
  format_block unit no_float_repr (b_record unit)
  = json_object unit no_float_repr "    " (b_record unit).
Proof.
  exact (format_block_nested unit no_float_repr (b_record unit)
           (fun x => eq_refl)).
Defined.
